(** * awscli/formatter.py: the table formatter

    A shallow embedding of [Formatter._remove_request_id], of
    [TableFormatter.__init__] and of the recursive table builder
    ([TableFormatter._build_table] and its helpers), followed by the
    properties of the builder: which directives it hands to the table, in
    which order, and when it raises. *)

From Stdlib Require Import List String Ascii Bool Arith ZArith Lia.
From Stdlib Require Import Permutation Sorted OrderedTypeEx DecimalString.
Import ListNotations.
Local Open Scope string_scope.
Local Open Scope list_scope.

Set Implicit Arguments.
Set Warnings "-register-all".

(** ** Python values

    The parsed response is built from [None], booleans, integers, strings,
    lists and dictionaries with string keys.  A dictionary is kept as the list
    of its items in insertion order, which is the order Python iterates it in;
    a well-formed dictionary has no key twice ([wf] below).  Floating-point
    numbers are left out: the builder treats them like integers (scalars,
    false when zero). *)

Inductive Value : Type :=
| VNone
| VBool (b : bool)
| VInt (z : Z)
| VStr (s : string)
| VList (l : list Value)
| VDict (d : list (string * Value)).

Definition Dict : Type := list (string * Value).

(** Exceptions the formatter can raise or let through. *)
Inductive Exn : Type :=
| TypeError
| KeyError (key : string)
| AttributeError
| ValueError (msg : string).

(** The outcome of a call: a value, an exception, or [Unfinished] when the
    recursion budget of [build_table_fuel] is used up ([_build_table] always
    gives enough, see [_build_table_finishes]). *)
Inductive Res (A : Type) : Type :=
| Ok (a : A)
| Raise (e : Exn)
| Unfinished.

Arguments Raise {A} e.
Arguments Unfinished {A}.

Definition res_bind {A B} (r : Res A) (k : A -> Res B) : Res B :=
  match r with
  | Ok a => k a
  | Raise e => Raise e
  | Unfinished => Unfinished
  end.

Fixpoint res_map {A B} (f : A -> Res B) (xs : list A) : Res (list B) :=
  match xs with
  | [] => Ok []
  | x :: rest =>
      res_bind (f x) (fun y => res_bind (res_map f rest) (fun ys => Ok (y :: ys)))
  end.

(** ** Python primitives on values *)

Definition isinstance_list (v : Value) : bool :=
  match v with VList _ => true | _ => false end.

Definition isinstance_dict (v : Value) : bool :=
  match v with VDict _ => true | _ => false end.

(** Truth value: [not current] is [negb (py_truthy current)]. *)
Definition py_truthy (v : Value) : bool :=
  match v with
  | VNone => false
  | VBool b => b
  | VInt z => negb (z =? 0)%Z
  | VStr s => negb (s =? "")
  | VList l => match l with [] => false | _ => true end
  | VDict d => match d with [] => false | _ => true end
  end.

Fixpoint dict_lookup (d : Dict) (k : string) : option Value :=
  match d with
  | [] => None
  | (k', v) :: rest => if k =? k' then Some v else dict_lookup rest k
  end.

Definition dict_keys (d : Dict) : list string := map fst d.

Fixpoint dict_del (d : Dict) (k : string) : Dict :=
  match d with
  | [] => []
  | (k', v) :: rest => if k =? k' then dict_del rest k else (k', v) :: dict_del rest k
  end.

(** [prefix] and [substring] are in the Standard Library; [k in s] for two
    strings is the substring test. *)
Fixpoint str_contains (k s : string) : bool :=
  if prefix k s then true
  else match s with
       | EmptyString => false
       | String _ s' => str_contains k s'
       end.

Definition is_str (k : string) (v : Value) : bool :=
  match v with VStr s => s =? k | _ => false end.

(** [k in container], for a string [k]. *)
Definition py_in (k : string) (container : Value) : Res bool :=
  match container with
  | VDict d => Ok (match dict_lookup d k with Some _ => true | None => false end)
  | VList l => Ok (existsb (is_str k) l)
  | VStr s => Ok (str_contains k s)
  | VNone | VBool _ | VInt _ => Raise TypeError
  end.

(** [container[k]], for a string [k]. *)
Definition py_getitem (container : Value) (k : string) : Res Value :=
  match container with
  | VDict d => match dict_lookup d k with Some v => Ok v | None => Raise (KeyError k) end
  | _ => Raise TypeError
  end.

(** [element.get(k, default)]: only dictionaries have the method. *)
Definition py_get (element : Value) (k : string) (default : Value) : Res Value :=
  match element with
  | VDict d => Ok (match dict_lookup d k with Some v => v | None => default end)
  | _ => Raise AttributeError
  end.

(** [list.sort()] and [sorted] on strings: strings compare by code unit,
    and two strings that compare equal are the same string, so every sorting
    algorithm gives the same list; insertion sort is the model. *)
Fixpoint sort_insert (k : string) (l : list string) : list string :=
  match l with
  | [] => [k]
  | x :: rest => if (k <=? x)%string then k :: l else x :: sort_insert k rest
  end.

Fixpoint py_sorted (l : list string) : list string :=
  match l with
  | [] => []
  | x :: rest => sort_insert x (py_sorted rest)
  end.

(** A [set] of strings: a list without repetition, in an order of its own. *)
Fixpoint set_add (k : string) (s : list string) : list string :=
  match s with
  | [] => [k]
  | x :: rest => if k =? x then s else x :: set_add k rest
  end.

Definition set_update (s : list string) (ks : list string) : list string :=
  fold_left (fun acc k => set_add k acc) ks s.

(** ** The table

    Modelled from the spec: awscli.table.MultiTable is not part of the
    sources.  The builder only calls [new_section], [add_row_header] and
    [add_row] on it, and the table is modelled as the sequence of these calls
    (the spec's DirectiveStream).  A cell is the Python value handed to
    [add_row]; turning it into text is the table's business. *)

Inductive Directive : Type :=
| NewSection (title : string) (indent_level : nat)
| AddHeaderRow (labels : list string)
| AddRow (cells : list Value).

Definition Table : Type := list Directive.

(** ** Methods that work on the table

    A method takes the table and gives back its result with the table as it
    left it.  When an exception escapes, [FullyBufferedFormatter.__call__]
    lets it through and the table is never rendered, so [Raise] carries no
    table. *)

Definition M (A : Type) : Type := Table -> Res (A * Table).

Definition ret {A} (a : A) : M A := fun t => Ok (a, t).

Definition bind {A B} (m : M A) (k : A -> M B) : M B :=
  fun t => match m t with
           | Ok (a, t') => k a t'
           | Raise e => Raise e
           | Unfinished => Unfinished
           end.

Definition lift {A} (r : Res A) : M A :=
  fun t => match r with
           | Ok a => Ok (a, t)
           | Raise e => Raise e
           | Unfinished => Unfinished
           end.

Notation "x <- m ;; k" := (bind m (fun x => k))
  (at level 61, m at next level, right associativity).
Notation "m ;; k" := (bind m (fun _ => k))
  (at level 61, right associativity).
Notation "' pat <- m ;; k" := (bind m (fun x => match x with pat => k end))
  (at level 61, pat pattern, m at next level, right associativity).

Definition new_section (title : string) (indent_level : nat) : M unit :=
  fun t => Ok (tt, t ++ [NewSection title indent_level]).

Definition add_row_header (headers : list string) : M unit :=
  fun t => Ok (tt, t ++ [AddHeaderRow headers]).

Definition add_row (row : list Value) : M unit :=
  fun t => Ok (tt, t ++ [AddRow row]).

(** [for x in xs: body] *)
Fixpoint for_each {A} (xs : list A) (body : A -> M unit) : M unit :=
  match xs with
  | [] => ret tt
  | x :: rest => body x ;; for_each rest body
  end.

Definition when (b : bool) (m : M unit) : M unit := if b then m else ret tt.

(** ** TableFormatter: classification of keys *)

Definition _scalar_type (element : Value) : bool :=
  negb (isinstance_list element || isinstance_dict element).

(** The loop of [_group_scalar_keys] over the keys of a dictionary, with the
    two lists it appends to. *)
Fixpoint group_loop (current : Value) (keys : list string)
    (headers more : list string) : Res (list string * list string) :=
  match keys with
  | [] => Ok (headers, more)
  | element :: rest =>
      res_bind (py_getitem current element) (fun v =>
        if _scalar_type v
        then group_loop current rest (headers ++ [element]) more
        else group_loop current rest headers (more ++ [element]))
  end.

(** [_group_scalar_keys(current)].  It is written for a dictionary, but
    [_group_scalar_keys_from_list] calls it on every element of a list whose
    first element is a dictionary, so [current] can be any value:
    - [None], a boolean or a number cannot be iterated (TypeError);
    - a non-empty string is indexed by its first character (TypeError);
    - an empty string or list has nothing to iterate and gives two empty lists;
    - a non-empty list is indexed by its own elements, which raises TypeError
      or IndexError unless each of them is an integer in range; in that last
      case integers come back as scalar keys, and either sorting them with the
      string keys or [element.get] on the list (AttributeError) aborts
      [_build_sub_table_from_list].  The build is aborted in every case, and
      the model raises here. *)
Definition _group_scalar_keys (current : Value) : Res (list string * list string) :=
  match current with
  | VDict d =>
      res_bind (group_loop current (dict_keys d) [] []) (fun '(headers, more) =>
        Ok (py_sorted headers, py_sorted more))
  | VList [] => Ok ([], [])
  | VStr "" => Ok ([], [])
  | _ => Raise TypeError
  end.

(** The loop of [_group_scalar_keys_from_list] with its two sets. *)
Fixpoint group_list_loop (list_of_dicts : list Value)
    (headers more : list string) : Res (list string * list string) :=
  match list_of_dicts with
  | [] => Ok (headers, more)
  | item :: rest =>
      res_bind (_group_scalar_keys item) (fun '(current_headers, current_more) =>
        group_list_loop rest (set_update headers current_headers)
                             (set_update more current_more))
  end.

Definition _group_scalar_keys_from_list (list_of_dicts : list Value)
    : Res (list string * list string) :=
  res_bind (group_list_loop list_of_dicts [] []) (fun '(headers, more) =>
    Ok (py_sorted headers, py_sorted more)).

(** ** TableFormatter: the builder *)

Definition nonempty {A} (l : list A) : bool :=
  match l with [] => false | _ => true end.

Section Layouts.

(** [self._build_table], as the two layouts call it. *)
Variable build_table : string -> Value -> nat -> M bool.

Definition _build_sub_table_from_dict (current : Value) (indent_level : nat)
    : M unit :=
  '(headers, more) <- lift (_group_scalar_keys current) ;;
  match headers with
  | [h0] =>
      (* len(headers) == 1 *)
      v <- lift (py_getitem current h0) ;;
      add_row [VStr h0; v]
  | _ :: _ =>
      add_row_header headers ;;
      row <- lift (res_map (py_getitem current) headers) ;;
      add_row row
  | [] => ret tt
  end ;;
  for_each more (fun remaining =>
    v <- lift (py_getitem current remaining) ;;
    build_table remaining v (indent_level + 1) ;;
    ret tt).

(** The body of [for element in current] in [_build_sub_table_from_list]
    ([first] is its value on entry; it is [False] afterwards). *)
Definition list_element (headers more : list string) (title : string)
    (indent_level : nat) (first : bool) (element : Value) : M unit :=
  when (negb first && nonempty more)
    (new_section title indent_level ;;
     add_row_header headers) ;;
  row <- lift (res_map (fun header => py_get element header (VStr "")) headers) ;;
  add_row row ;;
  for_each more (fun remaining =>
    present <- lift (py_in remaining element) ;;
    if present : bool then
      v <- lift (py_getitem element remaining) ;;
      build_table remaining v (indent_level + 1) ;;
      ret tt
    else ret tt).

Fixpoint list_loop (headers more : list string) (title : string)
    (indent_level : nat) (first : bool) (elements : list Value) : M unit :=
  match elements with
  | [] => ret tt
  | element :: rest =>
      list_element headers more title indent_level first element ;;
      list_loop headers more title indent_level false rest
  end.

Definition _build_sub_table_from_list (current : list Value)
    (indent_level : nat) (title : string) : M unit :=
  '(headers, more) <- lift (_group_scalar_keys_from_list current) ;;
  add_row_header headers ;;
  list_loop headers more title indent_level true current.

(** The body of [_build_table]. *)
Definition build_table_body (title : string) (current : Value)
    (indent_level : nat) : M bool :=
  if negb (py_truthy current) then ret false
  else
    new_section title indent_level ;;
    match current with
    | VList l =>
        match l with
        | VDict _ :: _ =>
            (* isinstance(current[0], dict) *)
            _build_sub_table_from_list l indent_level title
        | _ => for_each l (fun item => add_row [item])
        end
    | _ => ret tt
    end ;;
    match current with
    | VDict _ => _build_sub_table_from_dict current indent_level
    | _ => ret tt
    end ;;
    ret true.

End Layouts.

(** [_build_table] calls itself through the two layouts; [fuel] bounds the
    depth of these calls. *)
Fixpoint build_table_fuel (fuel : nat) (title : string) (current : Value)
    (indent_level : nat) : M bool :=
  match fuel with
  | O => fun _ => Unfinished
  | S fuel' => build_table_body (build_table_fuel fuel') title current indent_level
  end.

(** Nesting depth of a value. *)
Fixpoint depth (v : Value) : nat :=
  match v with
  | VList l => S (fold_right (fun x n => Nat.max (depth x) n) 0 l)
  | VDict d => S (fold_right (fun kv n => Nat.max (depth (snd kv)) n) 0 d)
  | _ => 0
  end.

(** [self._build_table(title, current, indent_level)] *)
Definition _build_table (title : string) (current : Value) (indent_level : nat)
    : M bool :=
  build_table_fuel (S (depth current)) title current indent_level.

(** The directives a call hands to an empty table (nothing when it raises). *)
Definition stream_of (title : string) (current : Value) (indent_level : nat)
    : list Directive :=
  match _build_table title current indent_level [] with
  | Ok (_, t) => t
  | _ => []
  end.

(** ** Formatter._remove_request_id

    The method changes [response_data] in place; the model returns the
    dictionary as the call leaves it.  [LOG.debug] has no effect on it. *)

Definition py_delitem (container : Value) (k : string) : Res Value :=
  match container with
  | VDict d =>
      match dict_lookup d k with
      | Some _ => Ok (VDict (dict_del d k))
      | None => Raise (KeyError k)
      end
  | _ => Raise TypeError
  end.

Definition _remove_request_id (response_data : Value) : Res Value :=
  res_bind (py_in "Errors" response_data) (fun has_errors =>
    if negb has_errors then
      res_bind (py_in "ResponseMetadata" response_data) (fun has_metadata =>
        if has_metadata then
          res_bind (py_getitem response_data "ResponseMetadata") (fun metadata =>
          res_bind (py_in "RequestId" metadata) (fun has_id =>
          res_bind (if has_id
                    then res_bind (py_getitem metadata "RequestId")
                           (fun request_id => Ok tt)
                    else Ok tt) (fun _ =>
          py_delitem response_data "ResponseMetadata")))
        else Ok response_data)
    else Ok response_data).

(** ** TableFormatter.__init__, _format_response and __call__ *)

Inductive StylerClass : Type := Styler | ColorizedStyler.

(** [MultiTable(initial_section, column_separator, styler)] with the calls
    made on it so far; [styler = None] is the table's default. *)
Record MultiTable : Type := mkMultiTable {
  initial_section : bool;
  column_separator : string;
  styler : option StylerClass;
  calls : Table
}.

Record TableFormatter : Type := mkTableFormatter {
  args_color : string;
  table : MultiTable
}.

Definition __init__ (color : string) : Res TableFormatter :=
  if color =? "auto" then
    Ok (mkTableFormatter color (mkMultiTable false "|" None []))
  else if color =? "off" then
    Ok (mkTableFormatter color (mkMultiTable false "|" (Some Styler) []))
  else if color =? "on" then
    Ok (mkTableFormatter color (mkMultiTable false "|" (Some ColorizedStyler) []))
  else Raise (ValueError ("Unknown color option: " ++ color)).

Definition with_calls (t : MultiTable) (c : Table) : MultiTable :=
  mkMultiTable (initial_section t) (column_separator t) (styler t) c.

(** [_format_response]: the formatter after the call, and the table given
    to [render] when the builder returned [True] ([None]: nothing is
    written).  What [render] paints is the table's business. *)
Definition _format_response (self : TableFormatter) (name : string)
    (response : Value) : Res (TableFormatter * option MultiTable) :=
  match _build_table name response 0 (calls (table self)) with
  | Ok (built, c) =>
      let self' := mkTableFormatter (args_color self) (with_calls (table self) c) in
      Ok (self', if built then Some (table self') else None)
  | Raise e => Raise e
  | Unfinished => Unfinished
  end.

(** [FullyBufferedFormatter.__call__] for the table formatter, from the point
    where [response_data] has been chosen. *)
Definition __call__ (self : TableFormatter) (name : string)
    (response_data : Value) : Res (TableFormatter * option MultiTable) :=
  res_bind (_remove_request_id response_data) (fun response_data' =>
    _format_response self name response_data').

(** Constructing the formatter and calling it once. *)
Definition format_table (color : string) (name : string) (response_data : Value)
    : Res (TableFormatter * option MultiTable) :=
  res_bind (__init__ color) (fun self => __call__ self name response_data).

(** ** JSONFormatter

    [json.dump] belongs to the Python library: the text it writes for a value
    is the parameter [json_dump].  The result of a method is the list of the
    strings it writes to the stream, in order. *)

Definition nl : string := String (ascii_of_nat 10) EmptyString.
Definition tab : string := String (ascii_of_nat 9) EmptyString.

Module JSONFormatter.
Section Dump.

Variable json_dump : Value -> string.

Definition _format_response (response : Value) : list string :=
  if py_truthy response then [json_dump response; nl] else [].

(** [FullyBufferedFormatter.__call__] for the JSON formatter, from the point
    where [response_data] has been chosen. *)
Definition __call__ (response_data : Value) : Res (list string) :=
  res_bind (_remove_request_id response_data) (fun response_data' =>
    Ok (_format_response response_data')).

End Dump.
End JSONFormatter.

(** ** TextFormatter *)

Module TextFormatter.

(** [label.upper()].  Strings are byte strings here, and on those [upper]
    changes the letters a to z and nothing else. *)
Definition upper_ascii (c : ascii) : ascii :=
  let n := nat_of_ascii c in
  if ((97 <=? n) && (n <=? 122))%nat then ascii_of_nat (n - 32) else c.

Fixpoint str_upper (s : string) : string :=
  match s with
  | EmptyString => EmptyString
  | String c s' => String (upper_ascii c) (str_upper s')
  end.

(** The loop over [data.items()] with the two lists it appends to; [str(val)]
    is written out for [None], booleans and integers. *)
Fixpoint classify (items : Dict) (scalars : list string)
    (non_scalars : list (string * Value)) : list string * list (string * Value) :=
  match items with
  | [] => (scalars, non_scalars)
  | (key, val) :: rest =>
      match val with
      | VDict _ => classify rest scalars (non_scalars ++ [(key, val)])
      | VList _ => classify rest scalars (non_scalars ++ [(key, val)])
      | VNone => classify rest (scalars ++ ["None"]) non_scalars
      | VBool b => classify rest (scalars ++ [if b then "True" else "False"]) non_scalars
      | VInt z => classify rest (scalars ++ [NilZero.string_of_int (Z.to_int z)]) non_scalars
      | VStr s => classify rest (scalars ++ [s]) non_scalars
      end
  end.

Definition writes_then (w k : Res (list string)) : Res (list string) :=
  res_bind w (fun a => res_bind k (fun b => Ok (a ++ b))).

Fixpoint for_writes {A} (xs : list A) (body : A -> Res (list string))
    : Res (list string) :=
  match xs with
  | [] => Ok []
  | x :: rest => writes_then (body x) (for_writes rest body)
  end.

Section Output.

(** [self._output], as the body calls it. *)
Variable output : Value -> option string -> Res (list string).

Definition output_body (data : Value) (label : option string)
    : Res (list string) :=
  match data with
  | VDict d =>
      let '(scalars, non_scalars) := classify d [] [] in
      let scalars :=
        match label with
        | Some l => if negb (l =? "") then str_upper l :: scalars else scalars
        | None => scalars
        end in
      writes_then (Ok [String.concat tab scalars; nl])
        (for_writes non_scalars (fun '(label, non_scalar) =>
           output non_scalar (Some label)))
  | VList l => for_writes l (fun d => output d None)
  | _ => Ok []
  end.

End Output.

Fixpoint output_fuel (fuel : nat) (data : Value) (label : option string)
    : Res (list string) :=
  match fuel with
  | O => Unfinished
  | S fuel' => output_body (output_fuel fuel') data label
  end.

(** [self._output(data, stream, label)]: what it writes to the stream. *)
Definition _output (data : Value) (label : option string) : Res (list string) :=
  output_fuel (S (depth data)) data label.

Definition _format_response (response : Value) : Res (list string) :=
  _output response None.

Definition __call__ (response_data : Value) : Res (list string) :=
  res_bind (_remove_request_id response_data) (fun response_data' =>
    _format_response response_data').

End TextFormatter.

(** ** get_formatter *)

Inductive FormatterObject : Type :=
| JSONFormatterObject (color : string)
| TextFormatterObject (color : string)
| TableFormatterObject (self : TableFormatter).

Definition get_formatter (format_type color : string)
    : Res (option FormatterObject) :=
  if format_type =? "json" then Ok (Some (JSONFormatterObject color))
  else if format_type =? "text" then Ok (Some (TextFormatterObject color))
  else if format_type =? "table" then
    res_bind (__init__ color) (fun self => Ok (Some (TableFormatterObject self)))
  else Ok None.

(** ** Vocabulary of the properties *)

Definition dict_get (d : Dict) (k : string) (default : Value) : Value :=
  match dict_lookup d k with Some v => v | None => default end.

Definition has_scalar (d : Dict) (k : string) : bool :=
  match dict_lookup d k with Some v => _scalar_type v | None => false end.

Definition has_nested (d : Dict) (k : string) : bool :=
  match dict_lookup d k with Some v => negb (_scalar_type v) | None => false end.

(** The keys of a dictionary whose value is a scalar, and those whose value
    is a list or a dictionary, in insertion order. *)
Definition scalar_keys (d : Dict) : list string :=
  filter (has_scalar d) (dict_keys d).

Definition nested_keys (d : Dict) : list string :=
  filter (has_nested d) (dict_keys d).

Definition str_lt (a b : string) : Prop := (a <? b)%string = true.
Definition str_le (a b : string) : Prop := (a <=? b)%string = true.

(** A value on which the list-of-dictionaries layout only ever meets
    dictionaries: wherever the builder goes, a list whose first element is a
    dictionary holds dictionaries only. *)
Fixpoint regular (v : Value) : bool :=
  match v with
  | VList l =>
      match l with
      | VDict _ :: _ => forallb isinstance_dict l && forallb regular l
      | _ => true
      end
  | VDict d => forallb (fun kv => regular (snd kv)) d
  | _ => true
  end.

(** [m] only appends to the table it is given. *)
Definition shift {A} (t : Table) (r : Res (A * Table)) : Res (A * Table) :=
  match r with
  | Ok (a, s) => Ok (a, t ++ s)
  | Raise e => Raise e
  | Unfinished => Unfinished
  end.

Definition framed {A} (m : M A) : Prop := forall t, m t = shift t (m []).

Definition finishes {A} (m : M A) : Prop := forall t, m t <> Unfinished.

(** The call returns (it does not raise). *)
Definition returns (title : string) (v : Value) (i : nat) : Prop :=
  exists r, _build_table title v i [] = Ok r.

(** The row of the dictionary [d] under the columns [headers]: its value for
    each of them, an empty string where it has none. *)
Definition row_of (headers : list string) (d : Dict) : Directive :=
  AddRow (map (fun k => dict_get d k (VStr "")) headers).

(** The sub-sections of [d]: what [_build_table] emits, one level deeper, for
    each key of [more] that [d] has, in the order of [more]. *)
Definition sub_sections (more : list string) (i : nat) (d : Dict)
    : list Directive :=
  flat_map (fun k => match dict_lookup d k with
                     | Some v => stream_of k v (i + 1)
                     | None => []
                     end) more.

(** The header and row of a dictionary at its own level. *)
Definition own_rows (d : Dict) : list Directive :=
  match py_sorted (scalar_keys d) with
  | [] => []
  | [k] => [AddRow [VStr k; dict_get d k (VStr "")]]
  | headers => [AddHeaderRow headers; row_of headers d]
  end.

(** The directives of one element of a list of dictionaries: a section and
    header of its own when [fresh], its row, its sub-sections. *)
Definition element_block (headers more : list string) (title : string)
    (i : nat) (fresh : bool) (d : Dict) : list Directive :=
  (if fresh then [NewSection title i; AddHeaderRow headers] else [])
  ++ row_of headers d :: sub_sections more i d.

(** Two values are the same up to the order in which the items of their
    dictionaries were inserted. *)
Inductive same : Value -> Value -> Prop :=
| same_none : same VNone VNone
| same_bool b : same (VBool b) (VBool b)
| same_int z : same (VInt z) (VInt z)
| same_str s : same (VStr s) (VStr s)
| same_list l1 l2 : Forall2 same l1 l2 -> same (VList l1) (VList l2)
| same_dict d1 d2 :
    NoDup (dict_keys d1) ->
    Permutation (dict_keys d1) (dict_keys d2) ->
    (forall k v1 v2, dict_lookup d1 k = Some v1 -> dict_lookup d2 k = Some v2 ->
                     same v1 v2) ->
    same (VDict d1) (VDict d2).

(** Two directives, two tables, two outcomes that differ at most in the
    insertion order of the dictionaries held by row cells. *)
Inductive same_directive : Directive -> Directive -> Prop :=
| same_section title i : same_directive (NewSection title i) (NewSection title i)
| same_header labels : same_directive (AddHeaderRow labels) (AddHeaderRow labels)
| same_row c1 c2 : Forall2 same c1 c2 -> same_directive (AddRow c1) (AddRow c2).

Definition same_table (t1 t2 : Table) : Prop := Forall2 same_directive t1 t2.

Definition same_res {A} (r1 r2 : Res (A * Table)) : Prop :=
  match r1, r2 with
  | Ok (a1, t1), Ok (a2, t2) => a1 = a2 /\ same_table t1 t2
  | Raise e1, Raise e2 => e1 = e2
  | Unfinished, Unfinished => True
  | _, _ => False
  end.

(** Outcomes and methods related by [R] on their results and by [same_table]
    on the tables. *)
Definition rel_R {A} (R : A -> A -> Prop) (r1 r2 : Res A) : Prop :=
  match r1, r2 with
  | Ok a1, Ok a2 => R a1 a2
  | Raise e1, Raise e2 => e1 = e2
  | Unfinished, Unfinished => True
  | _, _ => False
  end.

Definition rel_M {A} (R : A -> A -> Prop) (m1 m2 : M A) : Prop :=
  forall t1 t2, same_table t1 t2 ->
    rel_R (fun x1 x2 => R (fst x1) (fst x2) /\ same_table (snd x1) (snd x2))
          (m1 t1) (m2 t2).

(** Every cell of every row of the table is a scalar. *)
Definition scalar_cells (t : Table) : bool :=
  forallb (fun x => match x with
                    | AddRow cells => forallb _scalar_type cells
                    | _ => true
                    end) t.

(** The elements of the lists the builder lays out one element per row (the
    lists whose first element is not a dictionary), wherever it meets one. *)
Fixpoint plain_items (v : Value) : list Value :=
  match v with
  | VList l =>
      match l with
      | VDict _ :: _ => flat_map plain_items l
      | _ => l
      end
  | VDict d => flat_map (fun kv => plain_items (snd kv)) d
  | _ => []
  end.

Definition as_dict (e : Value) : Dict :=
  match e with VDict d => d | _ => [] end.

(** No key has a scalar value in one element of the list and a list or
    dictionary value in another. *)
Definition keys_consistent (l : list Value) : bool :=
  forallb (fun e1 =>
    forallb (fun e2 =>
      forallb (fun k => negb (has_nested (as_dict e2) k))
              (scalar_keys (as_dict e1))) l) l.

(** [keys_consistent] holds for every list of dictionaries the builder
    meets. *)
Fixpoint consistent (v : Value) : bool :=
  match v with
  | VList l =>
      match l with
      | VDict _ :: _ => keys_consistent l && forallb consistent l
      | _ => true
      end
  | VDict d => forallb (fun kv => consistent (snd kv)) d
  | _ => true
  end.

(** A row is fine for [items] when its cells are scalars, or when it is the
    single-cell row of one of [items]. *)
Definition row_ok (items : list Value) (x : Directive) : Prop :=
  match x with
  | AddRow cells =>
      forallb _scalar_type cells = true \/ exists e, cells = [e] /\ In e items
  | _ => True
  end.

(** The number of dictionaries in a value, at any depth. *)
Fixpoint count_dicts (v : Value) : nat :=
  match v with
  | VList l => fold_right (fun x n => count_dicts x + n) 0 l
  | VDict d => S (fold_right (fun kv n => count_dicts (snd kv) + n) 0 d)
  | _ => 0
  end.

(** What [TextFormatter._output] writes, by recursion on the value. *)
Fixpoint text_writes (data : Value) (label : option string) : list string :=
  match data with
  | VDict d =>
      let scalars := fst (TextFormatter.classify d [] []) in
      let scalars :=
        match label with
        | Some l => if negb (l =? "") then TextFormatter.str_upper l :: scalars
                    else scalars
        | None => scalars
        end in
      [String.concat tab scalars; nl]
      ++ flat_map (fun kv => if _scalar_type (snd kv) then []
                             else text_writes (snd kv) (Some (fst kv))) d
  | VList l => flat_map (fun x => text_writes x None) l
  | _ => []
  end.

(** Every second string written is a newline. *)
Fixpoint lines_of (ws : list string) : option (list string) :=
  match ws with
  | [] => Some []
  | line :: sep :: rest =>
      if sep =? nl then option_map (cons line) (lines_of rest) else None
  | _ => None
  end.

(** Every header row is followed at once by a row with as many cells. *)
Fixpoint aligned (s : Table) : bool :=
  match s with
  | [] => true
  | AddHeaderRow labels :: rest =>
      match rest with
      | AddRow cells :: _ => (List.length cells =? List.length labels)%nat && aligned rest
      | _ => false
      end
  | _ :: rest => aligned rest
  end.

(** A directive that is not a section above level [i]. *)
Definition section_from (i : nat) (x : Directive) : Prop :=
  match x with
  | NewSection _ j => i <= j
  | _ => True
  end.

(** A value [_group_scalar_keys] cannot iterate, or can iterate but not
    index: [None], a boolean, a number, a non-empty string. *)
Definition not_groupable (v : Value) : bool :=
  match v with
  | VNone | VBool _ | VInt _ => true
  | VStr s => negb (s =? "")
  | _ => false
  end.

(** ** Sample responses *)

Definition ex_instance : Dict :=
  [("State", VStr "running");
   ("Tags", VList [VDict [("Key", VStr "Name"); ("Value", VStr "web")]]);
   ("Id", VStr "i-1");
   ("Placement", VDict [("Zone", VStr "us-east-1a")]);
   ("Groups", VList [])].

Definition ex_item0 : Dict :=
  [("id", VInt 1); ("tags", VList [VStr "a"; VStr "b"])].

Definition ex_item1 : Dict :=
  [("tags", VList [VStr "c"]); ("id", VInt 2); ("note", VStr "x")].

Definition ex_flat : list Dict :=
  [[("x", VInt 1)]; [("z", VNone)]; [("y", VStr "b"); ("x", VInt 3)]].

Definition ex_mixed1 : Value :=
  VList [VInt 1; VDict [("a", VInt 1); ("b", VInt 2)]].

Definition ex_mixed2 : Value :=
  VList [VInt 1; VDict [("b", VInt 2); ("a", VInt 1)]].

Definition ex_volumes1 : Value :=
  VDict [("Volumes", VList [VDict [("Size", VInt 8); ("Id", VStr "v-1")];
                            VDict [("Id", VStr "v-2")]]);
         ("Owner", VStr "me")].

Definition ex_volumes2 : Value :=
  VDict [("Owner", VStr "me");
         ("Volumes", VList [VDict [("Id", VStr "v-1"); ("Size", VInt 8)];
                            VDict [("Id", VStr "v-2")]])].

Definition ex_nested_list : Value := VList [VList [VInt 1; VInt 2]].

Definition ex_kinds : Value :=
  VList [VDict [("k", VInt 1)]; VDict [("k", VList [VInt 2])]].

Definition ex_cells : Value :=
  VDict [("Name", VStr "n");
         ("Ports", VList [VInt 80; VList [VInt 1; VInt 2]]);
         ("Disks", VList [VDict [("Id", VStr "d-1"); ("Tags", VList [VStr "x"])];
                          VDict [("Size", VInt 8)]])].

Definition ex_response : Dict :=
  [("Reservations", VList []);
   ("ResponseMetadata", VDict [("RequestId", VStr "abc")]);
   ("NextToken", VStr "n")].

(** * Properties *)

(** ** The monad: extensionality and framing *)

Lemma bind_ext {A B} (m1 m2 : M A) (k1 k2 : A -> M B) t :
  m1 t = m2 t ->
  (forall a t', m1 t = Ok (a, t') -> k1 a t' = k2 a t') ->
  bind m1 k1 t = bind m2 k2 t.
Proof.
  intros Hm Hk. unfold bind. rewrite <- Hm.
  destruct (m1 t) as [[a t']| |]; auto.
Qed.

Lemma for_each_ext {A} (xs : list A) (b1 b2 : A -> M unit) :
  (forall x t, In x xs -> b1 x t = b2 x t) ->
  forall t, for_each xs b1 t = for_each xs b2 t.
Proof.
  induction xs as [|x xs IH]; intros H t; simpl; auto.
  apply bind_ext.
  - apply H. now left.
  - intros _ t' _. apply IH. intros y t0 Hy. apply H. now right.
Qed.

Lemma shift_nil {A} (r : Res (A * Table)) : shift [] r = r.
Proof. destruct r as [[a s]| |]; reflexivity. Qed.

Lemma shift_shift {A} t1 t2 (r : Res (A * Table)) :
  shift t1 (shift t2 r) = shift (t1 ++ t2) r.
Proof. destruct r as [[a s]| |]; simpl; auto. now rewrite app_assoc. Qed.

Lemma framed_ret {A} (a : A) : framed (ret a).
Proof. intro t. unfold ret. simpl. now rewrite app_nil_r. Qed.

Lemma framed_lift {A} (r : Res A) : framed (lift r).
Proof. intro t. unfold lift. destruct r; simpl; auto. now rewrite app_nil_r. Qed.

Lemma framed_bind {A B} (m : M A) (k : A -> M B) :
  framed m -> (forall a, framed (k a)) -> framed (bind m k).
Proof.
  intros Hm Hk t. unfold bind. rewrite (Hm t).
  destruct (m []) as [[a s]| |]; simpl; auto.
  rewrite (Hk a (t ++ s)), (Hk a s). now rewrite shift_shift.
Qed.

Lemma framed_new_section title i : framed (new_section title i).
Proof. intro t. reflexivity. Qed.

Lemma framed_add_row_header h : framed (add_row_header h).
Proof. intro t. reflexivity. Qed.

Lemma framed_add_row r : framed (add_row r).
Proof. intro t. reflexivity. Qed.

Lemma framed_for_each {A} (xs : list A) (body : A -> M unit) :
  (forall x, framed (body x)) -> framed (for_each xs body).
Proof.
  intro H. induction xs; simpl.
  - apply framed_ret.
  - apply framed_bind; auto.
Qed.

Lemma framed_when b (m : M unit) : framed m -> framed (when b m).
Proof. destruct b; simpl; auto. intros _. apply framed_ret. Qed.

Create HintDb framed.

#[local] Hint Resolve framed_ret framed_lift framed_new_section
  framed_add_row_header framed_add_row framed_when : framed.

Ltac framed_step :=
  repeat first
    [ apply framed_bind; [| intro]
    | apply framed_for_each; intro
    | apply framed_when
    | progress auto with framed
    | match goal with
      | |- framed (match ?x with _ => _ end) => destruct x
      | |- framed (if ?x then _ else _) => destruct x
      end ].

Lemma framed_from_dict rec current i :
  (forall k v j, framed (rec k v j)) ->
  framed (_build_sub_table_from_dict rec current i).
Proof. intro H. unfold _build_sub_table_from_dict. framed_step. Qed.

Lemma framed_list_element rec hs ms title i first e :
  (forall k v j, framed (rec k v j)) ->
  framed (list_element rec hs ms title i first e).
Proof. intro H. unfold list_element. framed_step. Qed.

Lemma framed_list_loop rec hs ms title i first l :
  (forall k v j, framed (rec k v j)) ->
  framed (list_loop rec hs ms title i first l).
Proof.
  intro H. revert first. induction l; intro first; simpl.
  - apply framed_ret.
  - apply framed_bind; auto using framed_list_element.
Qed.

Lemma framed_from_list rec l i title :
  (forall k v j, framed (rec k v j)) ->
  framed (_build_sub_table_from_list rec l i title).
Proof.
  intro H. unfold _build_sub_table_from_list.
  apply framed_bind; [apply framed_lift|]. intros [hs ms].
  apply framed_bind; [apply framed_add_row_header|]. intros _.
  now apply framed_list_loop.
Qed.

Lemma framed_body rec title current i :
  (forall k v j, framed (rec k v j)) ->
  framed (build_table_body rec title current i).
Proof.
  intro H. unfold build_table_body.
  destruct (negb (py_truthy current)); [apply framed_ret|].
  apply framed_bind; [apply framed_new_section|]. intros _.
  apply framed_bind.
  - destruct current; auto with framed.
    destruct l as [|[] ?]; try (apply framed_for_each; intro; apply framed_add_row).
    now apply framed_from_list.
  - intros _. apply framed_bind; [|intro; apply framed_ret].
    destruct current; auto with framed. now apply framed_from_dict.
Qed.

Lemma framed_fuel n : forall title v i, framed (build_table_fuel n title v i).
Proof.
  induction n; intros title v i.
  - intro t. reflexivity.
  - simpl. now apply framed_body.
Qed.

Lemma framed_build_table title v i : framed (_build_table title v i).
Proof. apply framed_fuel. Qed.

(** ** The recursion budget is enough *)

Lemma depth_lookup d k v : dict_lookup d k = Some v -> depth v < depth (VDict d).
Proof.
  simpl. induction d as [|[k' v'] d IH]; simpl; [discriminate|].
  destruct (k =? k')%string.
  - intros [= ->]. lia.
  - intro H. specialize (IH H). lia.
Qed.

Lemma depth_in e l : In e l -> depth e < depth (VList l).
Proof.
  simpl. induction l as [|x l IH]; simpl; [tauto|].
  intros [->|H]; [lia|]. specialize (IH H). lia.
Qed.

Lemma depth_getitem current k v : py_getitem current k = Ok v -> depth v < depth current.
Proof.
  destruct current; simpl; try discriminate.
  destruct (dict_lookup d k) eqn:E; [|discriminate].
  intros [= <-]. now apply depth_lookup in E.
Qed.

Lemma lift_ok {A} (r : Res A) t a t' : lift r t = Ok (a, t') -> r = Ok a.
Proof. unfold lift. destruct r; congruence. Qed.

Lemma from_dict_ext r1 r2 current i t :
  (forall k v j t', py_getitem current k = Ok v -> r1 k v j t' = r2 k v j t') ->
  _build_sub_table_from_dict r1 current i t = _build_sub_table_from_dict r2 current i t.
Proof.
  intro H. unfold _build_sub_table_from_dict.
  apply bind_ext; [reflexivity|]. intros [hs ms] t1 _.
  apply bind_ext; [reflexivity|]. intros _ t2 _.
  apply for_each_ext. intros k t3 _.
  apply bind_ext; [reflexivity|]. intros v t4 Hv. apply lift_ok in Hv.
  apply bind_ext; [now apply H|]. reflexivity.
Qed.

Lemma list_element_ext r1 r2 hs ms title i first e t :
  (forall k v j t', py_getitem e k = Ok v -> r1 k v j t' = r2 k v j t') ->
  list_element r1 hs ms title i first e t = list_element r2 hs ms title i first e t.
Proof.
  intro H. unfold list_element.
  apply bind_ext; [reflexivity|]. intros _ t1 _.
  apply bind_ext; [reflexivity|]. intros row t2 _.
  apply bind_ext; [reflexivity|]. intros _ t3 _.
  apply for_each_ext. intros k t4 _.
  apply bind_ext; [reflexivity|]. intros [] t5 _; [|reflexivity].
  apply bind_ext; [reflexivity|]. intros v t6 Hv. apply lift_ok in Hv.
  apply bind_ext; [now apply H|]. reflexivity.
Qed.

Lemma list_loop_ext r1 r2 hs ms title i l :
  (forall e k v j t', In e l -> py_getitem e k = Ok v -> r1 k v j t' = r2 k v j t') ->
  forall first t,
  list_loop r1 hs ms title i first l t = list_loop r2 hs ms title i first l t.
Proof.
  induction l as [|e l IH]; intros H first t; simpl; [reflexivity|].
  apply bind_ext.
  - apply list_element_ext. intros. eapply H; eauto. now left.
  - intros _ t' _. apply IH. intros. eapply H; eauto. now right.
Qed.

Lemma from_list_ext r1 r2 l i title t :
  (forall e k v j t', In e l -> py_getitem e k = Ok v -> r1 k v j t' = r2 k v j t') ->
  _build_sub_table_from_list r1 l i title t = _build_sub_table_from_list r2 l i title t.
Proof.
  intro H. unfold _build_sub_table_from_list.
  apply bind_ext; [reflexivity|]. intros [hs ms] t1 _.
  apply bind_ext; [reflexivity|]. intros _ t2 _.
  now apply list_loop_ext.
Qed.

(** The body of [_build_table] only calls itself on values nested strictly
    deeper in [current]. *)
Lemma body_ext r1 r2 title current i t :
  (forall k v j t', depth v < depth current -> r1 k v j t' = r2 k v j t') ->
  build_table_body r1 title current i t = build_table_body r2 title current i t.
Proof.
  intro H. unfold build_table_body.
  destruct (negb (py_truthy current)); [reflexivity|].
  apply bind_ext; [reflexivity|]. intros _ t1 _.
  apply bind_ext.
  - destruct current; try reflexivity.
    destruct l as [|[] l']; try reflexivity.
    apply from_list_ext. intros e k v j t' He Hv. apply H.
    apply depth_getitem in Hv. apply depth_in in He. lia.
  - intros _ t2 _. apply bind_ext; [|reflexivity].
    destruct current; try reflexivity.
    apply from_dict_ext. intros k v j t' Hv. apply H.
    now apply depth_getitem in Hv.
Qed.

Lemma fuel_irrelevant n : forall m title v i t,
  depth v < n -> depth v < m ->
  build_table_fuel n title v i t = build_table_fuel m title v i t.
Proof.
  induction n as [|n IH]; intros m title v i t Hn Hm; [lia|].
  destruct m as [|m]; [lia|]. simpl.
  apply body_ext. intros k v' j t' Hd. apply IH; lia.
Qed.

(** [_build_table] satisfies the equation of the Python method. *)
Lemma _build_table_eq title current i t :
  _build_table title current i t = build_table_body _build_table title current i t.
Proof.
  unfold _build_table at 1. simpl.
  apply body_ext. intros k v j t' Hd. unfold _build_table.
  apply fuel_irrelevant; lia.
Qed.

Lemma res_bind_fin {A B} (r : Res A) (k : A -> Res B) :
  r <> Unfinished -> (forall a, k a <> Unfinished) -> res_bind r k <> Unfinished.
Proof. destruct r; simpl; auto; congruence. Qed.

Lemma res_map_fin {A B} (f : A -> Res B) xs :
  (forall x, f x <> Unfinished) -> res_map f xs <> Unfinished.
Proof.
  intro H. induction xs; simpl; [congruence|].
  apply res_bind_fin; auto. intro. apply res_bind_fin; auto. congruence.
Qed.

Lemma py_getitem_fin c k : py_getitem c k <> Unfinished.
Proof. destruct c; simpl; try congruence. destruct (dict_lookup d k); congruence. Qed.

Lemma py_get_fin c k dflt : py_get c k dflt <> Unfinished.
Proof. destruct c; simpl; congruence. Qed.

Lemma py_in_fin k c : py_in k c <> Unfinished.
Proof. destruct c; simpl; congruence. Qed.

Lemma group_loop_fin current keys : forall hs ms,
  group_loop current keys hs ms <> Unfinished.
Proof.
  induction keys; intros; simpl; [congruence|].
  apply res_bind_fin; [apply py_getitem_fin|]. intro v.
  destruct (_scalar_type v); auto.
Qed.

Lemma _group_scalar_keys_fin current : _group_scalar_keys current <> Unfinished.
Proof.
  destruct current; simpl; try congruence.
  - destruct s; congruence.
  - destruct l; congruence.
  - apply res_bind_fin; [apply group_loop_fin|]. intros []. congruence.
Qed.

Lemma group_list_loop_fin l : forall hs ms, group_list_loop l hs ms <> Unfinished.
Proof.
  induction l; intros; simpl; [congruence|].
  apply res_bind_fin; [apply _group_scalar_keys_fin|]. intros []. auto.
Qed.

Lemma _group_scalar_keys_from_list_fin l : _group_scalar_keys_from_list l <> Unfinished.
Proof.
  apply res_bind_fin; [apply group_list_loop_fin|]. intros []. congruence.
Qed.

Lemma finishes_ret {A} (a : A) : finishes (ret a).
Proof. intro t. unfold ret. congruence. Qed.

Lemma finishes_lift {A} (r : Res A) : r <> Unfinished -> finishes (lift r).
Proof. intros H t. unfold lift. destruct r; congruence. Qed.

Lemma finishes_bind {A B} (m : M A) (k : A -> M B) :
  finishes m -> (forall a, finishes (k a)) -> finishes (bind m k).
Proof.
  intros Hm Hk t. unfold bind. specialize (Hm t).
  destruct (m t) as [[a t']| |]; [apply Hk|congruence|congruence].
Qed.

Lemma finishes_for_each {A} (xs : list A) (body : A -> M unit) :
  (forall x, finishes (body x)) -> finishes (for_each xs body).
Proof.
  intro H. induction xs; simpl; [apply finishes_ret|].
  apply finishes_bind; auto.
Qed.

Lemma finishes_when b (m : M unit) : finishes m -> finishes (when b m).
Proof. destruct b; simpl; auto. intros _. apply finishes_ret. Qed.

Lemma finishes_emit (d : Directive) : finishes (fun t => Ok (tt, t ++ [d])).
Proof. intro t. congruence. Qed.

Create HintDb fin.

#[local] Hint Resolve finishes_ret finishes_lift
  py_getitem_fin py_get_fin py_in_fin res_map_fin _group_scalar_keys_fin
  _group_scalar_keys_from_list_fin : fin.

#[local] Hint Extern 1 (finishes (new_section _ _)) => apply finishes_emit : fin.
#[local] Hint Extern 1 (finishes (add_row_header _)) => apply finishes_emit : fin.
#[local] Hint Extern 1 (finishes (add_row _)) => apply finishes_emit : fin.

Ltac finishes_step :=
  repeat first
    [ apply finishes_bind; [| intro]
    | apply finishes_for_each; intro
    | apply finishes_when
    | progress auto with fin
    | match goal with
      | |- finishes (match ?x with _ => _ end) => destruct x
      | |- finishes (if ?x then _ else _) => destruct x
      end ].

Lemma finishes_list_loop rec hs ms title i l :
  (forall k v j, finishes (rec k v j)) ->
  forall first, finishes (list_loop rec hs ms title i first l).
Proof.
  intro H. induction l; intro first; simpl.
  - apply finishes_ret.
  - apply finishes_bind; auto. unfold list_element. finishes_step.
Qed.

Lemma finishes_body rec title current i :
  (forall k v j, finishes (rec k v j)) ->
  finishes (build_table_body rec title current i).
Proof.
  intro H. unfold build_table_body.
  destruct (negb (py_truthy current)); [apply finishes_ret|].
  apply finishes_bind; [apply finishes_emit|]. intros _.
  apply finishes_bind.
  - destruct current; auto with fin.
    destruct l as [|[] ?]; try (apply finishes_for_each; intro; apply finishes_emit).
    unfold _build_sub_table_from_list.
    apply finishes_bind; [auto with fin|]. intros [hs ms].
    apply finishes_bind; [apply finishes_emit|]. intros _.
    now apply finishes_list_loop.
  - intros _. apply finishes_bind; [|intro; apply finishes_ret].
    destruct current; auto with fin.
    unfold _build_sub_table_from_dict. finishes_step.
Qed.

(** Every call of [_build_table] returns or raises: the budget it gives
    [build_table_fuel] is never used up. *)
Lemma _build_table_finishes title v i : finishes (_build_table title v i).
Proof.
  unfold _build_table.
  assert (G : forall n title v i, depth v < n -> finishes (build_table_fuel n title v i)).
  { clear. induction n as [|n IH]; intros title v i Hd t; [lia|]. simpl.
    rewrite (@body_ext (build_table_fuel n)
               (fun k v' j => if (depth v' <? depth v)%nat
                              then build_table_fuel n k v' j else ret false)).
    - apply finishes_body. intros k v' j.
      destruct (depth v' <? depth v)%nat eqn:E; [|apply finishes_ret].
      apply IH. apply Nat.ltb_lt in E. lia.
    - intros k v' j t' Hlt. apply Nat.ltb_lt in Hlt. now rewrite Hlt. }
  apply G. lia.
Qed.

(** ** Sorting keys *)

Lemma str_le_lt_eq a b : str_le a b <-> a = b \/ str_lt a b.
Proof.
  unfold str_le, str_lt, String.leb, String.ltb.
  destruct (a ?= b)%string eqn:E.
  - apply String.compare_eq_iff in E. intuition.
  - intuition.
  - split; [discriminate|]. intros [->|H]; [|discriminate].
    pose proof (String_as_OT.cmp_eq b b) as [_ C]. unfold String_as_OT.cmp in C.
    rewrite C in E; [discriminate|reflexivity].
Qed.

Lemma str_lt_trans a b c : str_lt a b -> str_lt b c -> str_lt a c.
Proof.
  unfold str_lt, String.ltb. intros H1 H2.
  destruct (a ?= b)%string eqn:E1; try discriminate.
  destruct (b ?= c)%string eqn:E2; try discriminate.
  apply String_as_OT.cmp_lt in E1, E2.
  pose proof (String_as_OT.lt_trans _ _ _ E1 E2) as L.
  apply String_as_OT.cmp_lt in L. unfold String_as_OT.cmp in L. now rewrite L.
Qed.

Lemma str_lt_irrefl a : ~ str_lt a a.
Proof.
  unfold str_lt, String.ltb.
  pose proof (String_as_OT.cmp_eq a a) as [_ C]. unfold String_as_OT.cmp in C.
  rewrite C; [discriminate|reflexivity].
Qed.

Lemma str_le_refl a : str_le a a.
Proof. apply str_le_lt_eq. now left. Qed.

Lemma str_le_trans a b c : str_le a b -> str_le b c -> str_le a c.
Proof.
  rewrite !str_le_lt_eq. intros [->|H1] [->|H2]; auto.
  right. eapply str_lt_trans; eauto.
Qed.

Lemma str_le_antisym a b : str_le a b -> str_le b a -> a = b.
Proof. apply String.leb_antisym. Qed.

Lemma str_le_total a b : str_le a b \/ str_le b a.
Proof. apply String.leb_total. Qed.

Lemma sort_insert_perm k l : Permutation (k :: l) (sort_insert k l).
Proof.
  induction l as [|x l IH]; simpl; [reflexivity|].
  destruct (k <=? x)%string; [reflexivity|].
  rewrite perm_swap. now constructor.
Qed.

Lemma py_sorted_perm l : Permutation l (py_sorted l).
Proof.
  induction l as [|x l IH]; simpl; [constructor|].
  rewrite <- sort_insert_perm. now constructor.
Qed.

Lemma py_sorted_in k l : In k (py_sorted l) <-> In k l.
Proof.
  split; apply Permutation_in; [symmetry|]; apply py_sorted_perm.
Qed.

Lemma sort_insert_sorted k l :
  StronglySorted str_le l -> StronglySorted str_le (sort_insert k l).
Proof.
  induction 1 as [|x l Hs IH Hx]; simpl.
  - repeat constructor.
  - destruct (k <=? x)%string eqn:E.
    + constructor; [now constructor|]. constructor; [exact E|].
      eapply Forall_impl; [|exact Hx]. intros y Hy. eapply str_le_trans; eauto.
    + constructor; [exact IH|].
      assert (Hxk : str_le x k).
      { destruct (str_le_total k x) as [C|C]; [unfold str_le in C; congruence|exact C]. }
      apply Forall_forall. intros y Hy.
      apply (Permutation_in _ (Permutation_sym (sort_insert_perm k l))) in Hy.
      destruct Hy as [<-|Hy]; [exact Hxk|].
      rewrite Forall_forall in Hx. now apply Hx.
Qed.

Lemma py_sorted_sorted l : StronglySorted str_le (py_sorted l).
Proof.
  induction l; simpl; [constructor|]. now apply sort_insert_sorted.
Qed.

Lemma sorted_le_nodup_lt l :
  StronglySorted str_le l -> NoDup l -> StronglySorted str_lt l.
Proof.
  induction 1 as [|x l Hs IH Hx]; intro Hn; [constructor|].
  inversion Hn as [|? ? Hnx Hnl]; subst.
  constructor; [auto|].
  rewrite Forall_forall in *. intros y Hy.
  destruct (proj1 (str_le_lt_eq x y) (Hx y Hy)) as [->|]; [contradiction|assumption].
Qed.

Lemma py_sorted_strict l : NoDup l -> StronglySorted str_lt (py_sorted l).
Proof.
  intro H. apply sorted_le_nodup_lt; [apply py_sorted_sorted|].
  eapply Permutation_NoDup; [apply py_sorted_perm|exact H].
Qed.

(** Two sorted lists with the same elements are the same list. *)
Lemma sorted_perm_eq l1 : forall l2,
  StronglySorted str_le l1 -> StronglySorted str_le l2 ->
  Permutation l1 l2 -> l1 = l2.
Proof.
  induction l1 as [|a l1 IH]; intros l2 H1 H2 P.
  - apply Permutation_nil in P. now subst.
  - destruct l2 as [|b l2]; [apply Permutation_sym, Permutation_nil in P; discriminate|].
    inversion H1 as [|? ? Hs1 Ha]; inversion H2 as [|? ? Hs2 Hb]; subst.
    rewrite Forall_forall in Ha, Hb.
    assert (a = b) as ->.
    { assert (Hin1 : In b (a :: l1)) by (eapply Permutation_in; [symmetry; exact P|now left]).
      assert (Hin2 : In a (b :: l2)) by (eapply Permutation_in; [exact P|now left]).
      destruct Hin1 as [|Hin1]; [assumption|].
      destruct Hin2 as [|Hin2]; [congruence|].
      apply str_le_antisym; auto. }
    f_equal. apply IH; auto. eapply Permutation_cons_inv; eauto.
Qed.

Lemma py_sorted_unique l1 l2 : Permutation l1 l2 -> py_sorted l1 = py_sorted l2.
Proof.
  intro P. apply sorted_perm_eq; try apply py_sorted_sorted.
  rewrite <- (py_sorted_perm l1), <- (py_sorted_perm l2). exact P.
Qed.

(** ** Classification of keys *)

Lemma lookup_in_keys d k : In k (dict_keys d) <-> exists v, dict_lookup d k = Some v.
Proof.
  induction d as [|[k' v'] d IH]; simpl.
  - split; [tauto|]. intros [v H]. discriminate.
  - destruct (String.eqb_spec k k') as [->|N].
    + split; eauto.
    + rewrite <- IH. split; [intros [E|H]; [congruence|auto]|auto].
Qed.

Lemma getitem_dict d k :
  In k (dict_keys d) -> py_getitem (VDict d) k = Ok (dict_get d k (VStr "")).
Proof.
  intro H. apply lookup_in_keys in H as [v H]. unfold dict_get. simpl. now rewrite H.
Qed.

Lemma group_loop_dict d keys : forall hs ms,
  incl keys (dict_keys d) ->
  group_loop (VDict d) keys hs ms
  = Ok (hs ++ filter (has_scalar d) keys, ms ++ filter (has_nested d) keys).
Proof.
  induction keys as [|k keys IH]; intros hs ms Hi; simpl.
  - now rewrite !app_nil_r.
  - assert (Hk : In k (dict_keys d)) by (apply Hi; now left).
    apply lookup_in_keys in Hk as [v Hv].
    unfold has_scalar, has_nested. rewrite Hv. simpl.
    destruct (_scalar_type v); simpl;
      rewrite IH by (intros x Hx; apply Hi; now right);
      rewrite <- ?app_assoc; reflexivity.
Qed.

Lemma _group_scalar_keys_dict d :
  _group_scalar_keys (VDict d)
  = Ok (py_sorted (scalar_keys d), py_sorted (nested_keys d)).
Proof.
  unfold _group_scalar_keys. rewrite group_loop_dict by apply incl_refl. reflexivity.
Qed.

Lemma scalar_keys_in d k : In k (scalar_keys d) <-> has_scalar d k = true.
Proof.
  unfold scalar_keys. rewrite filter_In. split; [tauto|]. intro H. split; auto.
  apply lookup_in_keys. unfold has_scalar in H. destruct (dict_lookup d k); eauto; discriminate.
Qed.

Lemma nested_keys_in d k : In k (nested_keys d) <-> has_nested d k = true.
Proof.
  unfold nested_keys. rewrite filter_In. split; [tauto|]. intro H. split; auto.
  apply lookup_in_keys. unfold has_nested in H. destruct (dict_lookup d k); eauto; discriminate.
Qed.

Lemma set_add_in k x s : In x (set_add k s) <-> x = k \/ In x s.
Proof.
  induction s as [|y s IH]; simpl.
  - intuition.
  - destruct (String.eqb_spec k y) as [->|N]; simpl.
    + intuition.
    + rewrite IH. intuition.
Qed.

Lemma set_add_nodup k s : NoDup s -> NoDup (set_add k s).
Proof.
  induction 1 as [|y s Hy Hs IH]; simpl.
  - constructor; [simpl; tauto|constructor].
  - destruct (String.eqb_spec k y) as [->|N].
    + now constructor.
    + constructor; auto. rewrite set_add_in. intros [E|H]; [congruence|contradiction].
Qed.

Lemma set_update_in ks : forall s x, In x (set_update s ks) <-> In x s \/ In x ks.
Proof.
  unfold set_update. induction ks as [|k ks IH]; intros s x; simpl.
  - tauto.
  - rewrite IH, set_add_in. intuition.
Qed.

Lemma set_update_nodup ks : forall s, NoDup s -> NoDup (set_update s ks).
Proof.
  unfold set_update. induction ks; intros s H; simpl; auto using set_add_nodup.
Qed.

(** The two sets of [_group_scalar_keys_from_list] on a list of dictionaries. *)
Lemma group_list_loop_dicts ds : forall hs ms,
  NoDup hs -> NoDup ms ->
  exists hs' ms',
    group_list_loop (map VDict ds) hs ms = Ok (hs', ms')
    /\ NoDup hs' /\ NoDup ms'
    /\ (forall k, In k hs' <-> In k hs \/ exists d, In d ds /\ has_scalar d k = true)
    /\ (forall k, In k ms' <-> In k ms \/ exists d, In d ds /\ has_nested d k = true).
Proof.
  induction ds as [|d ds IH]; intros hs ms Hh Hm; cbn [group_list_loop map].
  - exists hs, ms. repeat split; auto; try tauto; intros [|[d [[] _]]]; auto.
  - rewrite _group_scalar_keys_dict. cbn [res_bind].
    destruct (IH (set_update hs (py_sorted (scalar_keys d)))
                 (set_update ms (py_sorted (nested_keys d))))
      as (hs' & ms' & E & N1 & N2 & I1 & I2); auto using set_update_nodup.
    exists hs', ms'. repeat split; auto; intro H.
    + apply I1 in H. rewrite set_update_in, py_sorted_in, scalar_keys_in in H.
      destruct H as [[H|H]|(d' & Hd & H)];
        [left; auto | right; exists d; simpl; auto | right; exists d'; simpl; auto].
    + apply I1. rewrite set_update_in, py_sorted_in, scalar_keys_in.
      destruct H as [H|(d' & [<-|Hd] & H)];
        [left; left; auto | left; right; auto | right; exists d'; auto].
    + apply I2 in H. rewrite set_update_in, py_sorted_in, nested_keys_in in H.
      destruct H as [[H|H]|(d' & Hd & H)];
        [left; auto | right; exists d; simpl; auto | right; exists d'; simpl; auto].
    + apply I2. rewrite set_update_in, py_sorted_in, nested_keys_in.
      destruct H as [H|(d' & [<-|Hd] & H)];
        [left; left; auto | left; right; auto | right; exists d'; auto].
Qed.

(** On a list of dictionaries [_group_scalar_keys_from_list] returns the
    sorted union of the scalar keys and the sorted union of the nested keys. *)
Lemma group_from_list_dicts ds :
  exists headers more,
    _group_scalar_keys_from_list (map VDict ds) = Ok (headers, more)
    /\ StronglySorted str_lt headers /\ StronglySorted str_lt more
    /\ (forall k, In k headers <-> exists d, In d ds /\ has_scalar d k = true)
    /\ (forall k, In k more <-> exists d, In d ds /\ has_nested d k = true).
Proof.
  destruct (@group_list_loop_dicts ds [] []) as (hs & ms & E & N1 & N2 & I1 & I2);
    try constructor.
  exists (py_sorted hs), (py_sorted ms).
  unfold _group_scalar_keys_from_list. rewrite E. simpl.
  repeat split; auto using py_sorted_strict; intro H.
  - apply py_sorted_in, I1 in H. destruct H as [[]|H]; auto.
  - apply py_sorted_in, I1. auto.
  - apply py_sorted_in, I2 in H. destruct H as [[]|H]; auto.
  - apply py_sorted_in, I2. auto.
Qed.

(** ** The directives of the two layouts *)

Lemma returns_run title v i :
  returns title v i ->
  exists b, forall t, _build_table title v i t = Ok (b, t ++ stream_of title v i).
Proof.
  intros [[b s] E]. exists b. intro t.
  rewrite framed_build_table. unfold stream_of. rewrite E. reflexivity.
Qed.

Lemma for_each_streams {A} (xs : list A) (body : A -> M unit) g :
  (forall x t, In x xs -> body x t = Ok (tt, t ++ g x)) ->
  forall t, for_each xs body t = Ok (tt, t ++ flat_map g xs).
Proof.
  induction xs as [|x xs IH]; intros H t; simpl.
  - unfold ret. now rewrite app_nil_r.
  - unfold bind. rewrite H by now left.
    rewrite IH by (intros; apply H; now right). now rewrite <- app_assoc.
Qed.

Lemma res_map_ok {A B} (f : A -> Res B) g xs :
  (forall x, In x xs -> f x = Ok (g x)) -> res_map f xs = Ok (map g xs).
Proof.
  induction xs as [|x xs IH]; intro H; simpl; [reflexivity|].
  rewrite H by now left. simpl. rewrite IH by (intros; apply H; now right).
  reflexivity.
Qed.

Lemma sorted_scalar_keys_in d k :
  In k (py_sorted (scalar_keys d)) -> In k (dict_keys d).
Proof.
  rewrite py_sorted_in. unfold scalar_keys. rewrite filter_In. tauto.
Qed.

Lemma sorted_nested_keys_in d k :
  In k (py_sorted (nested_keys d)) -> In k (dict_keys d).
Proof.
  rewrite py_sorted_in. unfold nested_keys. rewrite filter_In. tauto.
Qed.

Lemma from_dict_stream d i t :
  (forall k v, dict_lookup d k = Some v -> _scalar_type v = false ->
               returns k v (i + 1)) ->
  _build_sub_table_from_dict _build_table (VDict d) i t
  = Ok (tt, t ++ own_rows d ++ sub_sections (py_sorted (nested_keys d)) i d).
Proof.
  intro H. unfold _build_sub_table_from_dict.
  unfold bind at 1. unfold lift at 1. rewrite _group_scalar_keys_dict.
  assert (Hsub : forall t', for_each (py_sorted (nested_keys d))
            (fun remaining =>
               v <- lift (py_getitem (VDict d) remaining) ;;
               _build_table remaining v (i + 1) ;; ret tt) t'
          = Ok (tt, t' ++ sub_sections (py_sorted (nested_keys d)) i d)).
  { intro t'. apply for_each_streams. intros k t0 Hk.
    apply py_sorted_in, nested_keys_in in Hk. unfold has_nested in Hk.
    destruct (dict_lookup d k) as [v|] eqn:E; [|discriminate].
    unfold bind, lift. simpl. rewrite E.
    destruct (@returns_run k v (i + 1)) as [b Hb].
    { apply H; auto. now destruct (_scalar_type v). }
    now rewrite Hb. }
  unfold own_rows.
  pose proof (@sorted_scalar_keys_in d) as Hin.
  destruct (py_sorted (scalar_keys d)) as [|k1 [|k2 hs]].
  - unfold bind, ret. rewrite Hsub. reflexivity.
  - unfold bind at 1 2. unfold lift. rewrite getitem_dict by (apply Hin; now left).
    unfold add_row. rewrite Hsub. now rewrite <- app_assoc.
  - unfold bind at 1 2 3. unfold add_row_header, lift.
    rewrite (@res_map_ok _ _ _ (fun k => dict_get d k (VStr ""))).
    + unfold add_row. rewrite Hsub. rewrite <- !app_assoc. reflexivity.
    + intros k Hk. apply getitem_dict. now apply Hin.
Qed.

Lemma list_element_stream hs ms title i first d t :
  (forall k v, In k ms -> dict_lookup d k = Some v -> returns k v (i + 1)) ->
  list_element _build_table hs ms title i first (VDict d) t
  = Ok (tt, t ++ element_block hs ms title i (negb first && nonempty ms) d).
Proof.
  intro H. unfold list_element, element_block.
  assert (Hsub : forall t', for_each ms
            (fun remaining =>
               present <- lift (py_in remaining (VDict d)) ;;
               (if present : bool
                then v <- lift (py_getitem (VDict d) remaining) ;;
                     _build_table remaining v (i + 1) ;; ret tt
                else ret tt)) t'
          = Ok (tt, t' ++ sub_sections ms i d)).
  { intro t'. apply for_each_streams. intros k t0 Hk.
    unfold bind, lift. simpl.
    destruct (dict_lookup d k) as [v|] eqn:E.
    - destruct (@returns_run k v (i + 1)) as [b Hb]; [eapply H; eauto|].
      now rewrite Hb.
    - unfold ret. now rewrite app_nil_r. }
  unfold bind at 1.
  assert (Hrow : res_map (fun header => py_get (VDict d) header (VStr "")) hs
                 = Ok (map (fun k => dict_get d k (VStr "")) hs)).
  { apply res_map_ok. reflexivity. }
  unfold when. destruct (negb first && nonempty ms); cbn [app].
  - unfold bind at 1 2 3. unfold new_section, add_row_header, lift. rewrite Hrow.
    unfold bind, add_row. rewrite Hsub. unfold row_of.
    rewrite <- !app_assoc. reflexivity.
  - unfold ret, bind at 1. unfold lift. rewrite Hrow.
    unfold bind, add_row. rewrite Hsub. unfold row_of.
    rewrite <- !app_assoc. reflexivity.
Qed.

Lemma list_loop_stream hs ms title i ds :
  (forall d k v, In d ds -> In k ms -> dict_lookup d k = Some v ->
                 returns k v (i + 1)) ->
  forall first t,
  list_loop _build_table hs ms title i first (map VDict ds) t
  = Ok (tt, t ++ match ds with
                 | [] => []
                 | d0 :: rest =>
                     element_block hs ms title i (negb first && nonempty ms) d0
                     ++ flat_map (element_block hs ms title i (nonempty ms)) rest
                 end).
Proof.
  induction ds as [|d ds IH]; intros H first t; simpl.
  - unfold ret. now rewrite app_nil_r.
  - unfold bind. rewrite list_element_stream by (intros; eapply H; eauto; now left).
    rewrite IH by (intros; eapply H; eauto; now right).
    rewrite <- app_assoc. destruct ds; reflexivity.
Qed.

Lemma from_list_stream headers more title i ds t :
  _group_scalar_keys_from_list (map VDict ds) = Ok (headers, more) ->
  (forall d k v, In d ds -> In k more -> dict_lookup d k = Some v ->
                 returns k v (i + 1)) ->
  _build_sub_table_from_list _build_table (map VDict ds) i title t
  = Ok (tt, t ++ AddHeaderRow headers ::
              match ds with
              | [] => []
              | d0 :: rest =>
                  element_block headers more title i false d0
                  ++ flat_map (element_block headers more title i (nonempty more)) rest
              end).
Proof.
  intros E H. unfold _build_sub_table_from_list.
  unfold bind at 1. unfold lift. rewrite E.
  unfold bind, add_row_header. rewrite list_loop_stream by assumption.
  rewrite <- app_assoc. reflexivity.
Qed.

(** ** The directives of [_build_table], case by case *)

Lemma build_falsy title v i t :
  py_truthy v = false -> _build_table title v i t = Ok (false, t).
Proof.
  intro H. rewrite _build_table_eq. unfold build_table_body. now rewrite H.
Qed.

Lemma build_scalar title v i t :
  py_truthy v = true -> _scalar_type v = true ->
  _build_table title v i t = Ok (true, t ++ [NewSection title i]).
Proof.
  intros H S. rewrite _build_table_eq. unfold build_table_body. rewrite H.
  destruct v; try discriminate; reflexivity.
Qed.

Lemma build_dict_stream title d i t :
  d <> [] ->
  (forall k v, dict_lookup d k = Some v -> _scalar_type v = false ->
               returns k v (i + 1)) ->
  _build_table title (VDict d) i t
  = Ok (true, t ++ NewSection title i ::
                own_rows d ++ sub_sections (py_sorted (nested_keys d)) i d).
Proof.
  intros Hd H. rewrite _build_table_eq. unfold build_table_body.
  destruct d as [|kv d]; [congruence|]. cbn [py_truthy negb].
  unfold bind at 1. unfold new_section.
  unfold bind at 1. unfold ret at 1.
  unfold bind. rewrite from_dict_stream by assumption.
  unfold ret. rewrite <- app_assoc. reflexivity.
Qed.

Lemma build_dicts_stream headers more title d0 rest i t :
  _group_scalar_keys_from_list (map VDict (d0 :: rest)) = Ok (headers, more) ->
  (forall d k v, In d (d0 :: rest) -> In k more -> dict_lookup d k = Some v ->
                 returns k v (i + 1)) ->
  _build_table title (VList (map VDict (d0 :: rest))) i t
  = Ok (true, t ++ NewSection title i :: AddHeaderRow headers ::
                element_block headers more title i false d0
                ++ flat_map (element_block headers more title i (nonempty more)) rest).
Proof.
  intros E H. rewrite _build_table_eq. unfold build_table_body.
  cbn [py_truthy negb map].
  unfold bind at 1. unfold new_section.
  unfold bind at 1.
  change (VDict d0 :: map VDict rest) with (map VDict (d0 :: rest)).
  rewrite from_list_stream with (headers := headers) (more := more) by assumption.
  unfold bind, ret. rewrite <- app_assoc. reflexivity.
Qed.

Lemma for_each_add_row l : forall t,
  for_each l (fun item => add_row [item]) t
  = Ok (tt, t ++ map (fun item => AddRow [item]) l).
Proof.
  induction l as [|x l IH]; intro t; simpl.
  - unfold ret. now rewrite app_nil_r.
  - unfold bind, add_row. rewrite IH, <- app_assoc. reflexivity.
Qed.

Lemma build_plain_list title e l i t :
  isinstance_dict e = false ->
  _build_table title (VList (e :: l)) i t
  = Ok (true, t ++ NewSection title i :: map (fun item => AddRow [item]) (e :: l)).
Proof.
  intro H. rewrite _build_table_eq. unfold build_table_body.
  cbn [py_truthy negb].
  unfold bind at 1. unfold new_section.
  assert (E : (match e :: l with
               | VDict _ :: _ =>
                   _build_sub_table_from_list _build_table (e :: l) i title
               | _ => for_each (e :: l) (fun item => add_row [item])
               end) = for_each (e :: l) (fun item => add_row [item])).
  { destruct e; try reflexivity. discriminate. }
  rewrite E. unfold bind at 1. rewrite for_each_add_row.
  unfold bind, ret. rewrite <- app_assoc. reflexivity.
Qed.

(** ** Regular values never make the builder raise *)

Lemma all_dicts l :
  forallb isinstance_dict l = true -> exists ds, l = map VDict ds.
Proof.
  induction l as [|e l IH]; simpl; intro H.
  - now exists [].
  - apply andb_prop in H as [He Hl]. destruct (IH Hl) as [ds ->].
    destruct e; try discriminate. now exists (d :: ds).
Qed.

Lemma regular_lookup d k v :
  regular (VDict d) = true -> dict_lookup d k = Some v -> regular v = true.
Proof.
  simpl. induction d as [|[k' v'] d IH]; simpl; [discriminate|].
  intro H. apply andb_prop in H as [H1 H2].
  destruct (k =? k')%string; [intros [= <-]; exact H1|auto].
Qed.

Lemma regular_returns_fuel n : forall title v i,
  depth v < n -> regular v = true -> returns title v i.
Proof.
  induction n as [|n IH]; intros title v i Hd Hr; [lia|].
  destruct (py_truthy v) eqn:Ht.
  2:{ eexists. now apply build_falsy. }
  destruct v as [| | | |l|d].
  1-4: eexists; now apply build_scalar.
  - destruct l as [|e l]; [discriminate|].
    destruct (isinstance_dict e) eqn:He.
    + assert (Hall : forallb isinstance_dict (e :: l) = true
                     /\ forallb regular (e :: l) = true).
      { destruct e; try discriminate. cbn [regular] in Hr.
        now apply andb_prop in Hr. }
      destruct Hall as [Hall Hreg]. destruct (all_dicts _ Hall) as [ds Eds].
      destruct ds as [|d0 rest]; [discriminate|]. rewrite Eds in *.
      destruct (group_from_list_dicts (d0 :: rest)) as (hs & ms & E & _).
      eexists. eapply build_dicts_stream; eauto.
      intros d k v Hin _ Hl.
      rewrite forallb_forall in Hreg.
      assert (In (VDict d) (map VDict (d0 :: rest))) as Hin' by now apply in_map.
      apply IH.
      * apply depth_lookup in Hl. apply depth_in in Hin'. lia.
      * eapply regular_lookup; eauto.
    + eexists. now apply build_plain_list.
  - destruct d as [|kv d]; [discriminate|].
    eexists. apply build_dict_stream; [discriminate|].
    intros k v Hl _. apply IH.
    + apply depth_lookup in Hl. lia.
    + eapply regular_lookup; eauto.
Qed.

Lemma regular_returns title v i : regular v = true -> returns title v i.
Proof. apply (@regular_returns_fuel (S (depth v))). lia. Qed.

Lemma bind_ret_true {A B} (m : M A) (m' : M B) t b s :
  (m ;; m' ;; ret true) t = Ok (b, s) -> b = true.
Proof.
  unfold bind, ret. destruct (m t) as [[a t1]| |]; try discriminate.
  destruct (m' t1) as [[a' t2]| |]; try discriminate. congruence.
Qed.

(** A call either leaves the table alone and returns [False], or opens a
    section titled [title] at [i] and returns [True], or raises. *)
Lemma build_shape title v i :
  (py_truthy v = false /\ _build_table title v i [] = Ok (false, []))
  \/ (exists s, _build_table title v i [] = Ok (true, NewSection title i :: s))
  \/ (exists e, _build_table title v i [] = Raise e).
Proof.
  destruct (py_truthy v) eqn:Ht.
  2:{ left. split; auto. now apply build_falsy. }
  right. rewrite _build_table_eq. unfold build_table_body. rewrite Ht. cbn [negb].
  set (rest := (_ ;; _ ;; ret true) : M bool).
  assert (Hf : framed rest).
  { subst rest. apply framed_bind.
    - destruct v; auto with framed.
      destruct l as [|[] ?]; try (apply framed_for_each; intro; apply framed_add_row).
      apply framed_from_list. intros. apply framed_build_table.
    - intros _. apply framed_bind; [|intro; apply framed_ret].
      destruct v; auto with framed.
      apply framed_from_dict. intros. apply framed_build_table. }
  assert (Hs : (new_section title i ;; rest) []
               = shift [NewSection title i] (rest [])).
  { unfold bind at 1. unfold new_section. cbn [app]. apply Hf. }
  rewrite Hs.
  assert (Hb : forall b s, rest [] = Ok (b, s) -> b = true).
  { subst rest. intros b s. apply bind_ret_true. }
  assert (Hu : rest [] <> Unfinished).
  { subst rest. apply finishes_bind.
    - destruct v; auto with fin.
      destruct l as [|[] ?]; try (apply finishes_for_each; intro; apply finishes_emit).
      unfold _build_sub_table_from_list.
      apply finishes_bind; [auto with fin|]. intros [hs ms].
      apply finishes_bind; [apply finishes_emit|]. intros _.
      apply finishes_list_loop. intros. apply _build_table_finishes.
    - intros _. apply finishes_bind; [|intro; apply finishes_ret].
      destruct v; auto with fin.
      unfold _build_sub_table_from_dict. finishes_step.
      apply _build_table_finishes. }
  destruct (rest []) as [[b s]| e |] eqn:E; simpl.
  - left. exists s. now rewrite (Hb b s eq_refl).
  - right. now exists e.
  - congruence.
Qed.

Lemma lookup_rows d hs :
  (forall k, In k hs -> In k (dict_keys d)) ->
  Forall2 (fun k v => dict_lookup d k = Some v) hs
          (map (fun k => dict_get d k (VStr "")) hs).
Proof.
  induction hs as [|k hs IH]; intro H; simpl; constructor.
  - destruct (proj1 (lookup_in_keys d k) (H k (or_introl eq_refl))) as [v E].
    unfold dict_get. now rewrite E.
  - apply IH. intros. apply H. now right.
Qed.

Lemma regular_children d k v i :
  regular (VDict d) = true -> dict_lookup d k = Some v -> returns k v i.
Proof. intros Hr Hl. apply regular_returns. eapply regular_lookup; eauto. Qed.

(** * The claims *)

(** C7. [_build_table] returns [False] and leaves the table as it was, with
    no section and no title, when the value is an empty dictionary, an empty
    list or [None]. *)
Theorem build_table_empty_emits_nothing (title : string) (i : nat) (t : Table) :
  _build_table title (VDict []) i t = Ok (false, t)
  /\ _build_table title (VList []) i t = Ok (false, t)
  /\ _build_table title VNone i t = Ok (false, t).
Proof. repeat split; now apply build_falsy. Qed.

(** C4. For a non-empty list none of whose elements is a dictionary (scalars,
    lists, or a mix of them), [_build_table] opens the section and adds one
    single-cell row per element, in the order of the list, and no header
    row. *)
Theorem build_table_plain_list_rows (title : string) (l : list Value)
    (i : nat) (t : Table) :
  l <> [] ->
  Forall (fun e => isinstance_dict e = false) l ->
  _build_table title (VList l) i t
  = Ok (true, t ++ NewSection title i :: map (fun item => AddRow [item]) l).
Proof.
  intros Hl Hf. destruct l as [|e l]; [congruence|].
  apply build_plain_list. now inversion Hf.
Qed.

Lemma build_table_plain_list_rows_witness :
  [VStr "red"; VList [VInt 1]; VStr "green"] <> []
  /\ _build_table "Colors" (VList [VStr "red"; VList [VInt 1]; VStr "green"]) 0 []
     = Ok (true, [NewSection "Colors" 0; AddRow [VStr "red"];
                  AddRow [VList [VInt 1]]; AddRow [VStr "green"]]).
Proof.
  split; [discriminate|].
  apply (@build_table_plain_list_rows "Colors"
           [VStr "red"; VList [VInt 1]; VStr "green"] 0 []).
  - discriminate.
  - repeat constructor.
Defined.

(** A list that starts with a dictionary is laid out as a list of
    dictionaries whatever follows: a number further on cannot be iterated by
    [_group_scalar_keys] and the call raises. *)
Lemma build_table_dict_then_number_raises :
  _build_table "t" (VList [VDict [("a", VInt 1)]; VInt 5]) 0 [] = Raise TypeError.
Proof. reflexivity. Qed.

(** C5. For a non-empty dictionary, after the section is opened:
    with exactly one scalar key [k] the table gets the single row
    [[k, current[k]]] and no header row; with two or more scalar keys it gets
    one header row of the sorted scalar keys and then one row of their
    values; with no scalar key it gets neither.  What follows belongs to the
    sub-sections of the nested keys. *)
Theorem build_table_dict_own_rows (title : string) (d : Dict) (i : nat)
    (t : Table) :
  d <> [] ->
  regular (VDict d) = true ->
  exists headers own,
    Permutation (scalar_keys d) headers
    /\ StronglySorted str_le headers
    /\ _build_table title (VDict d) i t
       = Ok (true, t ++ NewSection title i ::
                     own ++ sub_sections (py_sorted (nested_keys d)) i d)
    /\ match headers with
       | [] => own = []
       | [k] => exists v, dict_lookup d k = Some v /\ own = [AddRow [VStr k; v]]
       | _ => exists row,
                Forall2 (fun k v => dict_lookup d k = Some v) headers row
                /\ own = [AddHeaderRow headers; AddRow row]
       end.
Proof.
  intros Hd Hr. exists (py_sorted (scalar_keys d)), (own_rows d).
  split; [apply py_sorted_perm|]. split; [apply py_sorted_sorted|].
  split.
  - apply build_dict_stream; auto. intros k v Hl _. eapply regular_children; eauto.
  - unfold own_rows. pose proof (@sorted_scalar_keys_in d) as Hin.
    destruct (py_sorted (scalar_keys d)) as [|k1 [|k2 hs]]; [reflexivity| |].
    + destruct (proj1 (lookup_in_keys d k1) (Hin k1 (or_introl eq_refl))) as [v E].
      exists v. split; auto. unfold dict_get. now rewrite E.
    + eexists. split; [|reflexivity]. now apply lookup_rows.
Qed.

Lemma build_table_dict_own_rows_witness :
  ex_instance <> []
  /\ regular (VDict ex_instance) = true
  /\ exists headers own,
       Permutation (scalar_keys ex_instance) headers
       /\ StronglySorted str_le headers
       /\ _build_table "Instance" (VDict ex_instance) 0 []
          = Ok (true, [] ++ NewSection "Instance" 0 ::
                        own ++ sub_sections (py_sorted (nested_keys ex_instance)) 0
                                 ex_instance)
       /\ match headers with
          | [] => own = []
          | [k] => exists v, dict_lookup ex_instance k = Some v
                             /\ own = [AddRow [VStr k; v]]
          | _ => exists row,
                   Forall2 (fun k v => dict_lookup ex_instance k = Some v) headers row
                   /\ own = [AddHeaderRow headers; AddRow row]
          end.
Proof.
  split; [discriminate|]. split; [reflexivity|].
  apply (@build_table_dict_own_rows "Instance" ex_instance 0 []).
  - discriminate.
  - reflexivity.
Defined.

Lemma build_false_unchanged title v i t t' :
  _build_table title v i t = Ok (false, t') -> t' = t.
Proof.
  rewrite framed_build_table.
  destruct (build_shape title v i) as [[_ E]|[[s E]|[e E]]]; rewrite E; simpl.
  - rewrite app_nil_r. congruence.
  - discriminate.
  - discriminate.
Qed.

Lemma stream_shape title v i :
  returns title v i ->
  (_build_table title v i [] = Ok (false, []) /\ stream_of title v i = [])
  \/ (exists s, _build_table title v i [] = Ok (true, NewSection title i :: s)
                /\ stream_of title v i = NewSection title i :: s).
Proof.
  intros [r Hr]. unfold stream_of.
  destruct (build_shape title v i) as [[_ E]|[[s E]|[e E]]].
  - left. now rewrite E.
  - right. exists s. now rewrite E.
  - congruence.
Qed.

Lemma own_rows_no_section d :
  Forall (fun x => match x with NewSection _ _ => False | _ => True end) (own_rows d).
Proof.
  unfold own_rows, row_of.
  destruct (py_sorted (scalar_keys d)) as [|k1 [|k2 hs]]; repeat constructor.
Qed.

(** C6. For a non-empty dictionary, after its own header and row the builder
    goes through the keys with a list or dictionary value in sorted order and
    calls itself on each with the key as title, one level deeper; such a call
    either returns [False] and adds nothing, or opens the section of the key
    at that level. *)
Theorem build_table_dict_sub_sections (title : string) (d : Dict) (i : nat)
    (t : Table) :
  d <> [] ->
  regular (VDict d) = true ->
  exists own more,
    Permutation (nested_keys d) more
    /\ StronglySorted str_le more
    /\ Forall (fun x => match x with NewSection _ _ => False | _ => True end) own
    /\ _build_table title (VDict d) i t
       = Ok (true, t ++ NewSection title i :: own ++ sub_sections more i d)
    /\ (forall k, In k more ->
          exists v, dict_lookup d k = Some v
            /\ ((_build_table k v (i + 1) [] = Ok (false, [])
                 /\ stream_of k v (i + 1) = [])
                \/ exists s,
                     _build_table k v (i + 1) [] = Ok (true, NewSection k (i + 1) :: s)
                     /\ stream_of k v (i + 1) = NewSection k (i + 1) :: s))
    /\ (forall k v j t0 t1, _build_table k v j t0 = Ok (false, t1) -> t1 = t0).
Proof.
  intros Hd Hr. exists (own_rows d), (py_sorted (nested_keys d)).
  split; [apply py_sorted_perm|]. split; [apply py_sorted_sorted|].
  split; [apply own_rows_no_section|]. split; [|split].
  - apply build_dict_stream; auto. intros k v Hl _. eapply regular_children; eauto.
  - intros k Hk. apply sorted_nested_keys_in, lookup_in_keys in Hk as [v Hv].
    exists v. split; auto. apply stream_shape. eapply regular_children; eauto.
  - intros. eapply build_false_unchanged; eauto.
Qed.

Lemma build_table_dict_sub_sections_witness :
  ex_instance <> []
  /\ regular (VDict ex_instance) = true
  /\ exists own more,
       Permutation (nested_keys ex_instance) more
       /\ StronglySorted str_le more
       /\ Forall (fun x => match x with NewSection _ _ => False | _ => True end) own
       /\ _build_table "Instance" (VDict ex_instance) 0 []
          = Ok (true, [] ++ NewSection "Instance" 0 ::
                        own ++ sub_sections more 0 ex_instance)
       /\ (forall k, In k more ->
             exists v, dict_lookup ex_instance k = Some v
               /\ ((_build_table k v (0 + 1) [] = Ok (false, [])
                    /\ stream_of k v (0 + 1) = [])
                   \/ exists s,
                        _build_table k v (0 + 1) []
                        = Ok (true, NewSection k (0 + 1) :: s)
                        /\ stream_of k v (0 + 1) = NewSection k (0 + 1) :: s))
       /\ (forall k v j t0 t1, _build_table k v j t0 = Ok (false, t1) -> t1 = t0).
Proof.
  split; [discriminate|]. split; [reflexivity|].
  apply (@build_table_dict_sub_sections "Instance" ex_instance 0 []).
  - discriminate.
  - reflexivity.
Defined.

Lemma has_scalar_iff d k :
  has_scalar d k = true <-> exists v, dict_lookup d k = Some v /\ _scalar_type v = true.
Proof.
  unfold has_scalar. destruct (dict_lookup d k) as [v|].
  - split; [eauto|]. now intros (v' & [= <-] & H).
  - split; [discriminate|]. now intros (v' & [=] & _).
Qed.

Lemma has_nested_iff d k :
  has_nested d k = true <-> exists v, dict_lookup d k = Some v /\ _scalar_type v = false.
Proof.
  unfold has_nested. destruct (dict_lookup d k) as [v|].
  - split.
    + intro H. exists v. split; auto. now destruct (_scalar_type v).
    + intros (v' & [= <-] & ->). reflexivity.
  - split; [discriminate|]. now intros (v' & [=] & _).
Qed.

Lemma regular_list_children d0 rest d k v j :
  regular (VList (map VDict (d0 :: rest))) = true ->
  In d (d0 :: rest) -> dict_lookup d k = Some v -> returns k v j.
Proof.
  intros Hr Hd Hl. cbn [regular map] in Hr. apply andb_prop in Hr as [_ Hr].
  change (VDict d0 :: map VDict rest) with (map VDict (d0 :: rest)) in Hr.
  rewrite forallb_forall in Hr.
  eapply regular_children; eauto. apply Hr. now apply in_map.
Qed.

(** C2. For a non-empty list of dictionaries the header row holds the sorted
    union of the scalar keys of all elements (a key is there as soon as one
    element has it with a scalar value), and the row of each element holds,
    header by header, the element's value, or an empty string where the
    element has no such key; the call returns. *)
Theorem build_table_dicts_columns (title : string) (ds : list Dict) (i : nat)
    (t : Table) :
  ds <> [] ->
  regular (VList (map VDict ds)) = true ->
  exists headers more blocks,
    _group_scalar_keys_from_list (map VDict ds) = Ok (headers, more)
    /\ StronglySorted str_lt headers
    /\ (forall k, In k headers <->
                  exists d v, In d ds /\ dict_lookup d k = Some v
                              /\ _scalar_type v = true)
    /\ _build_table title (VList (map VDict ds)) i t
       = Ok (true, t ++ NewSection title i :: AddHeaderRow headers :: List.concat blocks)
    /\ Forall2 (fun d block =>
                  exists fresh,
                    block = fresh
                            ++ AddRow (map (fun k => match dict_lookup d k with
                                                     | Some v => v
                                                     | None => VStr ""
                                                     end) headers)
                            :: sub_sections more i d
                    /\ (fresh = []
                        \/ fresh = [NewSection title i; AddHeaderRow headers]))
               ds blocks.
Proof.
  intros Hd Hr. destruct ds as [|d0 rest]; [congruence|].
  destruct (group_from_list_dicts (d0 :: rest)) as (hs & ms & E & S1 & _ & I1 & _).
  exists hs, ms,
    (element_block hs ms title i false d0
     :: map (element_block hs ms title i (nonempty ms)) rest).
  split; [exact E|]. split; [exact S1|]. split; [|split].
  - intro k. rewrite I1. split.
    + intros (d & Hin & H). apply has_scalar_iff in H as (v & Hv & Hs). eauto.
    + intros (d & v & Hin & Hv & Hs). exists d. split; auto.
      apply has_scalar_iff. eauto.
  - cbn [List.concat]. rewrite <- flat_map_concat_map.
    apply build_dicts_stream; auto.
    intros d k v Hin _ Hl. eapply regular_list_children; eauto.
  - assert (G : forall fresh d, exists f,
               element_block hs ms title i fresh d
               = f ++ AddRow (map (fun k => match dict_lookup d k with
                                            | Some v => v
                                            | None => VStr ""
                                            end) hs) :: sub_sections ms i d
               /\ (f = [] \/ f = [NewSection title i; AddHeaderRow hs])).
    { intros fresh d. unfold element_block.
      eexists. split; [reflexivity|]. destruct fresh; auto. }
    constructor; [apply G|].
    clear - G. induction rest; simpl; constructor; auto.
Qed.

Lemma build_table_dicts_columns_witness :
  ex_flat <> []
  /\ regular (VList (map VDict ex_flat)) = true
  /\ exists headers more blocks,
       _group_scalar_keys_from_list (map VDict ex_flat) = Ok (headers, more)
       /\ StronglySorted str_lt headers
       /\ (forall k, In k headers <->
                     exists d v, In d ex_flat /\ dict_lookup d k = Some v
                                 /\ _scalar_type v = true)
       /\ _build_table "Flat" (VList (map VDict ex_flat)) 0 []
          = Ok (true, [] ++ NewSection "Flat" 0 :: AddHeaderRow headers
                        :: List.concat blocks)
       /\ Forall2 (fun d block =>
                     exists fresh,
                       block = fresh
                               ++ AddRow (map (fun k => match dict_lookup d k with
                                                        | Some v => v
                                                        | None => VStr ""
                                                        end) headers)
                               :: sub_sections more 0 d
                       /\ (fresh = []
                           \/ fresh = [NewSection "Flat" 0; AddHeaderRow headers]))
                  ex_flat blocks.
Proof.
  split; [discriminate|]. split; [reflexivity|].
  apply (@build_table_dicts_columns "Flat" ex_flat 0 []).
  - discriminate.
  - reflexivity.
Defined.

(** C3. In the layout of a list of dictionaries, when some key has a list or
    dictionary value ([more] is not empty), every element but the first gets
    a new section with the same title and level and the header row again
    before its row; when [more] is empty all the rows follow the one header
    row. *)
Theorem build_table_dicts_sections (title : string) (d0 : Dict)
    (rest : list Dict) (i : nat) (t : Table) :
  regular (VList (map VDict (d0 :: rest))) = true ->
  exists headers more,
    _group_scalar_keys_from_list (map VDict (d0 :: rest)) = Ok (headers, more)
    /\ (forall k, In k more <->
                  exists d v, In d (d0 :: rest) /\ dict_lookup d k = Some v
                              /\ _scalar_type v = false)
    /\ (more = [] ->
        _build_table title (VList (map VDict (d0 :: rest))) i t
        = Ok (true, t ++ NewSection title i :: AddHeaderRow headers ::
                      map (row_of headers) (d0 :: rest)))
    /\ (more <> [] ->
        _build_table title (VList (map VDict (d0 :: rest))) i t
        = Ok (true, t ++ NewSection title i :: AddHeaderRow headers ::
                      row_of headers d0 :: sub_sections more i d0
                      ++ flat_map (fun d => NewSection title i :: AddHeaderRow headers
                                            :: row_of headers d :: sub_sections more i d)
                           rest)).
Proof.
  intro Hr.
  destruct (group_from_list_dicts (d0 :: rest)) as (hs & ms & E & _ & _ & _ & I2).
  exists hs, ms. split; [exact E|]. split; [|split].
  - intro k. rewrite I2. split.
    + intros (d & Hin & H). apply has_nested_iff in H as (v & Hv & Hs). eauto.
    + intros (d & v & Hin & Hv & Hs). exists d. split; auto.
      apply has_nested_iff. eauto.
  - intros ->.
    rewrite build_dicts_stream with (headers := hs) (more := [])
      by (auto; intros d k v _ []).
    unfold element_block, sub_sections. cbn [flat_map nonempty app map].
    do 5 f_equal; clear; induction rest; simpl; congruence.
  - intro Hm.
    rewrite build_dicts_stream with (headers := hs) (more := ms)
      by (auto; intros; eapply regular_list_children; eauto).
    destruct ms; [congruence|]. reflexivity.
Qed.

Lemma build_table_dicts_sections_witness :
  regular (VList (map VDict (ex_item0 :: [ex_item1]))) = true
  /\ exists headers more,
       _group_scalar_keys_from_list (map VDict (ex_item0 :: [ex_item1]))
       = Ok (headers, more)
       /\ (forall k, In k more <->
                     exists d v, In d (ex_item0 :: [ex_item1])
                                 /\ dict_lookup d k = Some v
                                 /\ _scalar_type v = false)
       /\ (more = [] ->
           _build_table "Items" (VList (map VDict (ex_item0 :: [ex_item1]))) 0 []
           = Ok (true, [] ++ NewSection "Items" 0 :: AddHeaderRow headers ::
                         map (row_of headers) (ex_item0 :: [ex_item1])))
       /\ (more <> [] ->
           _build_table "Items" (VList (map VDict (ex_item0 :: [ex_item1]))) 0 []
           = Ok (true, [] ++ NewSection "Items" 0 :: AddHeaderRow headers ::
                         row_of headers ex_item0 :: sub_sections more 0 ex_item0
                         ++ flat_map (fun d => NewSection "Items" 0
                                               :: AddHeaderRow headers
                                               :: row_of headers d
                                               :: sub_sections more 0 d)
                              [ex_item1])).
Proof.
  split; [reflexivity|].
  apply (@build_table_dicts_sections "Items" ex_item0 [ex_item1] 0 []).
  reflexivity.
Defined.

(** ** The response filter *)

Lemma dict_del_lookup_same d k : dict_lookup (dict_del d k) k = None.
Proof.
  induction d as [|[k' v] d IH]; simpl; [reflexivity|].
  destruct (String.eqb_spec k k') as [->|N]; [exact IH|].
  simpl. destruct (String.eqb_spec k k'); [contradiction|exact IH].
Qed.

Lemma dict_del_lookup_other d k k' :
  k' <> k -> dict_lookup (dict_del d k) k' = dict_lookup d k'.
Proof.
  intro N. induction d as [|[k0 v] d IH]; simpl; [reflexivity|].
  destruct (String.eqb_spec k k0) as [->|N0].
  - destruct (String.eqb_spec k' k0); [contradiction|exact IH].
  - simpl. destruct (String.eqb_spec k' k0); [reflexivity|exact IH].
Qed.

Lemma dict_del_absent d k : dict_lookup d k = None -> dict_del d k = d.
Proof.
  induction d as [|[k0 v] d IH]; simpl; [reflexivity|].
  destruct (String.eqb_spec k k0); [discriminate|].
  intro H. now rewrite IH.
Qed.

(** C9. For a response dictionary whose [ResponseMetadata], when it has one,
    is a dictionary: [_remove_request_id] deletes the [ResponseMetadata] item
    exactly when the response has no [Errors] key, leaves every other item as
    it is, and [__call__] hands the filtered response to [_format_response]. *)
Theorem remove_request_id_filters_metadata (d : Dict) :
  (forall md, dict_lookup d "ResponseMetadata" = Some md ->
              isinstance_dict md = true) ->
  exists d',
    _remove_request_id (VDict d) = Ok (VDict d')
    /\ d' = match dict_lookup d "Errors" with
            | Some _ => d
            | None => dict_del d "ResponseMetadata"
            end
    /\ (dict_lookup d' "ResponseMetadata"
        = match dict_lookup d "Errors" with
          | Some _ => dict_lookup d "ResponseMetadata"
          | None => None
          end)
    /\ (forall k, k <> "ResponseMetadata" -> dict_lookup d' k = dict_lookup d k)
    /\ (forall self name,
          __call__ self name (VDict d) = _format_response self name (VDict d')).
Proof.
  intro Hmd.
  assert (E : _remove_request_id (VDict d)
              = Ok (VDict match dict_lookup d "Errors" with
                          | Some _ => d
                          | None => dict_del d "ResponseMetadata"
                          end)).
  { unfold _remove_request_id. cbn [py_in res_bind].
    destruct (dict_lookup d "Errors") as [errs|]; cbn [negb]; [reflexivity|].
    destruct (dict_lookup d "ResponseMetadata") as [md|] eqn:Em.
    - cbn [py_getitem res_bind]. rewrite Em.
      specialize (Hmd md eq_refl). destruct md as [| | | | |m]; try discriminate.
      cbn [res_bind py_in]. unfold py_delitem. rewrite Em.
      destruct (dict_lookup m "RequestId") eqn:Er; cbn [py_getitem res_bind].
      + rewrite Er. reflexivity.
      + reflexivity.
    - now rewrite dict_del_absent. }
  eexists. split; [exact E|]. split; [reflexivity|]. split; [|split].
  - destruct (dict_lookup d "Errors"); [reflexivity|apply dict_del_lookup_same].
  - intros k Hk. destruct (dict_lookup d "Errors"); [reflexivity|].
    now apply dict_del_lookup_other.
  - intros self name. unfold __call__. rewrite E. reflexivity.
Qed.

Lemma remove_request_id_filters_metadata_witness :
  (forall md, dict_lookup ex_response "ResponseMetadata" = Some md ->
              isinstance_dict md = true)
  /\ exists d',
       _remove_request_id (VDict ex_response) = Ok (VDict d')
       /\ d' = match dict_lookup ex_response "Errors" with
               | Some _ => ex_response
               | None => dict_del ex_response "ResponseMetadata"
               end
       /\ (dict_lookup d' "ResponseMetadata"
           = match dict_lookup ex_response "Errors" with
             | Some _ => dict_lookup ex_response "ResponseMetadata"
             | None => None
             end)
       /\ (forall k, k <> "ResponseMetadata" ->
                     dict_lookup d' k = dict_lookup ex_response k)
       /\ (forall self name,
             __call__ self name (VDict ex_response)
             = _format_response self name (VDict d')).
Proof.
  assert (H : forall md, dict_lookup ex_response "ResponseMetadata" = Some md ->
                         isinstance_dict md = true).
  { intros md E. vm_compute in E. inversion E. reflexivity. }
  split; [exact H|].
  apply (@remove_request_id_filters_metadata ex_response H).
Defined.

(** C10. [TableFormatter.__init__] succeeds, with a table on which nothing
    has been called yet, for the color options [auto], [off] and [on]; for
    any other option it raises [ValueError], so no formatter exists, nothing
    is built and nothing is rendered. *)
Theorem init_rejects_unknown_color (color : string) :
  (color = "auto" \/ color = "off" \/ color = "on" ->
   exists self, __init__ color = Ok self /\ calls (table self) = [])
  /\ (color <> "auto" -> color <> "off" -> color <> "on" ->
      __init__ color = Raise (ValueError ("Unknown color option: " ++ color))
      /\ forall name response,
           format_table color name response
           = Raise (ValueError ("Unknown color option: " ++ color))).
Proof.
  split.
  - intros [-> | [-> | ->]]; eexists; split; reflexivity.
  - intros H1 H2 H3.
    assert (E : __init__ color
                = Raise (ValueError ("Unknown color option: " ++ color))).
    { unfold __init__.
      destruct (String.eqb_spec color "auto"); [contradiction|].
      destruct (String.eqb_spec color "off"); [contradiction|].
      destruct (String.eqb_spec color "on"); [contradiction|]. reflexivity. }
    split; [exact E|]. intros. unfold format_table. now rewrite E.
Qed.

Lemma init_rejects_unknown_color_witness :
  (exists self, __init__ "off" = Ok self /\ calls (table self) = [])
  /\ "blue" <> "auto" /\ "blue" <> "off" /\ "blue" <> "on"
  /\ __init__ "blue" = Raise (ValueError ("Unknown color option: " ++ "blue"))
  /\ forall name response,
       format_table "blue" name response
       = Raise (ValueError ("Unknown color option: " ++ "blue")).
Proof.
  split.
  - apply (proj1 (init_rejects_unknown_color "off")). right. left. reflexivity.
  - split; [discriminate|]. split; [discriminate|]. split; [discriminate|].
    apply (proj2 (init_rejects_unknown_color "blue")); discriminate.
Defined.

(** ** The same value, whatever the insertion order of its dictionaries *)

Lemma rel_R_eq {A} (r : Res A) : rel_R eq r r.
Proof. destruct r; simpl; auto. Qed.

Lemma rel_ret {A} (R : A -> A -> Prop) a1 a2 : R a1 a2 -> rel_M R (ret a1) (ret a2).
Proof. intros H t1 t2 Ht. simpl. auto. Qed.

Lemma rel_lift {A} (R : A -> A -> Prop) r1 r2 :
  rel_R R r1 r2 -> rel_M R (lift r1) (lift r2).
Proof.
  intros H t1 t2 Ht. unfold lift.
  destruct r1, r2; simpl in *; auto; contradiction.
Qed.

Lemma rel_bind {A B} (R : A -> A -> Prop) (S : B -> B -> Prop)
    (m1 m2 : M A) (k1 k2 : A -> M B) :
  rel_M R m1 m2 ->
  (forall a1 a2, R a1 a2 -> rel_M S (k1 a1) (k2 a2)) ->
  rel_M S (bind m1 k1) (bind m2 k2).
Proof.
  intros Hm Hk t1 t2 Ht. unfold bind. specialize (Hm t1 t2 Ht).
  destruct (m1 t1) as [[a1 s1]| |], (m2 t2) as [[a2 s2]| |]; simpl in Hm;
    try contradiction; auto.
  destruct Hm as [Ha Hs]. now apply Hk.
Qed.

Lemma rel_emit d1 d2 :
  same_directive d1 d2 ->
  rel_M eq (fun t => Ok (tt, t ++ [d1])) (fun t => Ok (tt, t ++ [d2])).
Proof.
  intros H t1 t2 Ht. simpl. split; auto.
  apply Forall2_app; auto.
Qed.

Lemma rel_new_section title i : rel_M eq (new_section title i) (new_section title i).
Proof. apply rel_emit. constructor. Qed.

Lemma rel_add_row_header h : rel_M eq (add_row_header h) (add_row_header h).
Proof. apply rel_emit. constructor. Qed.

Lemma rel_add_row c1 c2 : Forall2 same c1 c2 -> rel_M eq (add_row c1) (add_row c2).
Proof. intro H. apply rel_emit. now constructor. Qed.

Lemma rel_for_each {A} (xs : list A) (b1 b2 : A -> M unit) :
  (forall x, rel_M eq (b1 x) (b2 x)) -> rel_M eq (for_each xs b1) (for_each xs b2).
Proof.
  intro H. induction xs; simpl.
  - now apply rel_ret.
  - eapply rel_bind; [apply H|]. intros _ _ _. exact IHxs.
Qed.

Lemma rel_res_map {A} (R : Value -> Value -> Prop) (f1 f2 : A -> Res Value) xs :
  (forall x, rel_R R (f1 x) (f2 x)) ->
  rel_R (Forall2 R) (res_map f1 xs) (res_map f2 xs).
Proof.
  intro H. induction xs as [|x xs IH]; simpl; [constructor|].
  specialize (H x). destruct (f1 x), (f2 x); simpl in *; try contradiction; auto.
  destruct (res_map f1 xs), (res_map f2 xs); simpl in *; try contradiction; auto.
Qed.

Lemma same_scalar_type v1 v2 : same v1 v2 -> _scalar_type v1 = _scalar_type v2.
Proof. destruct 1; reflexivity. Qed.

Lemma same_isinstance_dict v1 v2 : same v1 v2 -> isinstance_dict v1 = isinstance_dict v2.
Proof. destruct 1; reflexivity. Qed.

Lemma same_scalar_eq v1 v2 : same v1 v2 -> _scalar_type v1 = true -> v1 = v2.
Proof. destruct 1; simpl; auto; discriminate. Qed.

Lemma same_truthy v1 v2 : same v1 v2 -> py_truthy v1 = py_truthy v2.
Proof.
  destruct 1 as [| | | |l1 l2 H|d1 d2 _ P _]; try reflexivity.
  - destruct H; reflexivity.
  - simpl. destruct d1, d2; try reflexivity.
    + apply Permutation_nil in P. discriminate.
    + apply Permutation_sym, Permutation_nil in P. discriminate.
Qed.

Lemma same_dict_lookup d1 d2 k :
  same (VDict d1) (VDict d2) ->
  (dict_lookup d1 k = None /\ dict_lookup d2 k = None)
  \/ (exists v1 v2, dict_lookup d1 k = Some v1 /\ dict_lookup d2 k = Some v2
                    /\ same v1 v2).
Proof.
  intro H. inversion H as [| | | | |? ? _ P Hv]; subst.
  pose proof (lookup_in_keys d1 k) as [A1 B1].
  pose proof (lookup_in_keys d2 k) as [A2 B2].
  destruct (dict_lookup d1 k) as [v1|] eqn:E1, (dict_lookup d2 k) as [v2|] eqn:E2.
  - right. exists v1, v2. eauto.
  - exfalso. assert (In k (dict_keys d2)) as Hin
      by (eapply Permutation_in; [exact P|]; apply B1; eauto).
    destruct (A2 Hin). discriminate.
  - exfalso. assert (In k (dict_keys d1)) as Hin
      by (eapply Permutation_in; [symmetry; exact P|]; apply B2; eauto).
    destruct (A1 Hin). discriminate.
  - now left.
Qed.

Lemma same_has_scalar d1 d2 k :
  same (VDict d1) (VDict d2) -> has_scalar d1 k = has_scalar d2 k.
Proof.
  intro H. unfold has_scalar.
  destruct (same_dict_lookup k H) as [[-> ->]|(v1 & v2 & -> & -> & Hs)]; auto.
  now apply same_scalar_type.
Qed.

Lemma same_has_nested d1 d2 k :
  same (VDict d1) (VDict d2) -> has_nested d1 k = has_nested d2 k.
Proof.
  intro H. unfold has_nested.
  destruct (same_dict_lookup k H) as [[-> ->]|(v1 & v2 & -> & -> & Hs)]; auto.
  f_equal. now apply same_scalar_type.
Qed.

Lemma filter_perm {A} (f : A -> bool) l1 l2 :
  Permutation l1 l2 -> Permutation (filter f l1) (filter f l2).
Proof.
  induction 1; simpl.
  - constructor.
  - destruct (f x); auto.
  - destruct (f x), (f y); auto. apply perm_swap.
  - etransitivity; eauto.
Qed.

Lemma same_group_dict d1 d2 :
  same (VDict d1) (VDict d2) ->
  _group_scalar_keys (VDict d1) = _group_scalar_keys (VDict d2).
Proof.
  intro H. rewrite !_group_scalar_keys_dict.
  assert (P : Permutation (dict_keys d1) (dict_keys d2)) by now inversion H.
  f_equal. f_equal; apply py_sorted_unique.
  - unfold scalar_keys.
    rewrite (filter_ext _ (has_scalar d2)) by (intro; now apply same_has_scalar).
    now apply filter_perm.
  - unfold nested_keys.
    rewrite (filter_ext _ (has_nested d2)) by (intro; now apply same_has_nested).
    now apply filter_perm.
Qed.

Lemma same_group v1 v2 :
  same v1 v2 -> _group_scalar_keys v1 = _group_scalar_keys v2.
Proof.
  intro H. destruct H as [| | | |l1 l2 Hl|d1 d2 N P Hv]; try reflexivity.
  - destruct Hl; reflexivity.
  - apply same_group_dict. now constructor.
Qed.

Lemma same_group_list l1 l2 :
  Forall2 same l1 l2 ->
  _group_scalar_keys_from_list l1 = _group_scalar_keys_from_list l2.
Proof.
  intro H. unfold _group_scalar_keys_from_list. f_equal.
  generalize (@nil string) at 1 3. generalize (@nil string).
  induction H as [|e1 e2 l1 l2 He Hl IH]; intros hs ms; simpl; [reflexivity|].
  rewrite (same_group He). destruct (_group_scalar_keys e2) as [[ch cm]| |]; simpl; auto.
Qed.

Lemma rel_for_each2 {A} (R : A -> A -> Prop) xs1 xs2 (b1 b2 : A -> M unit) :
  Forall2 R xs1 xs2 ->
  (forall x1 x2, R x1 x2 -> rel_M eq (b1 x1) (b2 x2)) ->
  rel_M eq (for_each xs1 b1) (for_each xs2 b2).
Proof.
  intros HF H. induction HF; simpl.
  - now apply rel_ret.
  - eapply rel_bind; [apply H; eassumption|]. intros _ _ _. exact IHHF.
Qed.

Lemma rel_getitem c1 c2 k :
  same c1 c2 ->
  rel_R (fun v1 v2 => same v1 v2 /\ depth v1 < depth c1)
        (py_getitem c1 k) (py_getitem c2 k).
Proof.
  intro H. destruct c1, c2; try (inversion H; fail); simpl; auto.
  destruct (same_dict_lookup k H) as [[E1 E2]|(v1 & v2 & E1 & E2 & Hs)];
    rewrite E1, E2; simpl; auto.
  split; auto. now apply depth_lookup in E1.
Qed.

Lemma rel_get e1 e2 k :
  same e1 e2 -> rel_R same (py_get e1 k (VStr "")) (py_get e2 k (VStr "")).
Proof.
  intro H. destruct e1, e2; try (inversion H; fail); simpl; auto.
  destruct (same_dict_lookup k H) as [[E1 E2]|(v1 & v2 & E1 & E2 & Hs)];
    rewrite E1, E2; auto. constructor.
Qed.

Lemma same_is_str k v1 v2 : same v1 v2 -> is_str k v1 = is_str k v2.
Proof. destruct 1; reflexivity. Qed.

Lemma py_in_same e1 e2 k : same e1 e2 -> py_in k e1 = py_in k e2.
Proof.
  intro H. destruct e1, e2; try (inversion H; fail); simpl; auto.
  - inversion H; subst. reflexivity.
  - f_equal. inversion H as [| | | |? ? Hl|]; subst. clear H.
    induction Hl; simpl; auto. f_equal; auto using same_is_str.
  - destruct (same_dict_lookup k H) as [[E1 E2]|(v1 & v2 & E1 & E2 & Hs)];
      now rewrite E1, E2.
Qed.

Section SameLayouts.

Variables r1 r2 : string -> Value -> nat -> M bool.

Lemma rel_sub_section c1 c2 i k :
  same c1 c2 ->
  (forall k v1 v2 j, depth v1 < depth c1 -> same v1 v2 ->
                     rel_M eq (r1 k v1 j) (r2 k v2 j)) ->
  rel_M eq (v <- lift (py_getitem c1 k) ;; r1 k v (i + 1) ;; ret tt)
           (v <- lift (py_getitem c2 k) ;; r2 k v (i + 1) ;; ret tt).
Proof.
  intros Hc Hrec.
  eapply rel_bind; [apply rel_lift, rel_getitem, Hc|].
  intros v1 v2 [Hs Hd]. eapply rel_bind; [now apply Hrec|].
  intros. now apply rel_ret.
Qed.

Lemma rel_from_dict c1 c2 i :
  same c1 c2 ->
  (forall k v1 v2 j, depth v1 < depth c1 -> same v1 v2 ->
                     rel_M eq (r1 k v1 j) (r2 k v2 j)) ->
  rel_M eq (_build_sub_table_from_dict r1 c1 i) (_build_sub_table_from_dict r2 c2 i).
Proof.
  intros Hc Hrec. unfold _build_sub_table_from_dict.
  eapply rel_bind.
  { apply rel_lift. rewrite (same_group Hc). apply rel_R_eq. }
  intros [hs ms] ? <-.
  eapply rel_bind with (R := eq).
  - destruct hs as [|h0 [|h1 hs]].
    + now apply rel_ret.
    + eapply rel_bind; [apply rel_lift, rel_getitem, Hc|].
      intros v1 v2 [Hs _]. apply rel_add_row. repeat constructor. exact Hs.
    + eapply rel_bind; [apply rel_add_row_header|]. intros _ _ _.
      eapply rel_bind with (R := Forall2 same).
      * apply rel_lift. apply rel_res_map. intro k.
        pose proof (rel_getitem k Hc) as G.
        destruct (py_getitem c1 k), (py_getitem c2 k); simpl in *; tauto.
      * intros. now apply rel_add_row.
  - intros _ _ _. apply rel_for_each. intro k. now apply rel_sub_section.
Qed.

Lemma rel_list_element hs ms title i first e1 e2 :
  same e1 e2 ->
  (forall k v1 v2 j, depth v1 < depth e1 -> same v1 v2 ->
                     rel_M eq (r1 k v1 j) (r2 k v2 j)) ->
  rel_M eq (list_element r1 hs ms title i first e1)
           (list_element r2 hs ms title i first e2).
Proof.
  intros He Hrec. unfold list_element.
  eapply rel_bind with (R := eq).
  { unfold when. destruct (negb first && nonempty ms); [|now apply rel_ret].
    eapply rel_bind; [apply rel_new_section|]. intros. apply rel_add_row_header. }
  intros _ _ _.
  eapply rel_bind with (R := Forall2 same).
  { apply rel_lift, rel_res_map. intro k. now apply rel_get. }
  intros row1 row2 Hrow.
  eapply rel_bind; [now apply rel_add_row|]. intros _ _ _.
  apply rel_for_each. intro k.
  eapply rel_bind.
  { apply rel_lift. rewrite (py_in_same k He). apply rel_R_eq. }
  intros present ? <-. destruct present; [|now apply rel_ret].
  now apply rel_sub_section.
Qed.

Lemma rel_list_loop hs ms title i l1 l2 :
  Forall2 same l1 l2 ->
  (forall e1 k v1 v2 j, In e1 l1 -> depth v1 < depth e1 -> same v1 v2 ->
                        rel_M eq (r1 k v1 j) (r2 k v2 j)) ->
  forall first,
  rel_M eq (list_loop r1 hs ms title i first l1) (list_loop r2 hs ms title i first l2).
Proof.
  induction 1 as [|e1 e2 l1 l2 He Hl IH]; intros Hrec first; simpl.
  - now apply rel_ret.
  - eapply rel_bind.
    + apply rel_list_element; auto. intros. eapply Hrec; eauto. now left.
    + intros _ _ _. apply IH. intros. eapply Hrec; eauto. now right.
Qed.

Lemma rel_from_list l1 l2 i title :
  Forall2 same l1 l2 ->
  (forall e1 k v1 v2 j, In e1 l1 -> depth v1 < depth e1 -> same v1 v2 ->
                        rel_M eq (r1 k v1 j) (r2 k v2 j)) ->
  rel_M eq (_build_sub_table_from_list r1 l1 i title)
           (_build_sub_table_from_list r2 l2 i title).
Proof.
  intros Hl Hrec. unfold _build_sub_table_from_list.
  eapply rel_bind.
  { apply rel_lift. rewrite (same_group_list Hl). apply rel_R_eq. }
  intros [hs ms] ? <-.
  eapply rel_bind; [apply rel_add_row_header|]. intros _ _ _.
  now apply rel_list_loop.
Qed.

Lemma rel_body title c1 c2 i :
  same c1 c2 ->
  (forall k v1 v2 j, depth v1 < depth c1 -> same v1 v2 ->
                     rel_M eq (r1 k v1 j) (r2 k v2 j)) ->
  rel_M eq (build_table_body r1 title c1 i) (build_table_body r2 title c2 i).
Proof.
  intros Hc Hrec. unfold build_table_body.
  rewrite <- (same_truthy Hc).
  destruct (negb (py_truthy c1)); [now apply rel_ret|].
  eapply rel_bind; [apply rel_new_section|]. intros _ _ _.
  eapply rel_bind with (R := eq).
  - destruct Hc as [| | | |l1 l2 Hl|d1 d2 N P Hv]; try now apply rel_ret.
    destruct Hl as [|e1 e2 l1 l2 He Hl]; [now apply rel_ret|].
    assert (HF : Forall2 same (e1 :: l1) (e2 :: l2)) by now constructor.
    assert (Hplain : rel_M eq (for_each (e1 :: l1) (fun item => add_row [item]))
                              (for_each (e2 :: l2) (fun item => add_row [item]))).
    { eapply rel_for_each2; [exact HF|].
      intros x1 x2 Hx. apply rel_add_row. now repeat constructor. }
    destruct He; try exact Hplain.
    apply rel_from_list; auto.
    intros e k v1 v2 j Hin Hd Hs. apply Hrec; auto.
    apply depth_in in Hin. lia.
  - intros _ _ _. eapply rel_bind with (R := eq); [|intros; now apply rel_ret].
    destruct c1, c2; try (inversion Hc; fail); try now apply rel_ret.
    apply rel_from_dict; auto.
Qed.

End SameLayouts.

Lemma same_build_fuel n : forall title v1 v2 i,
  depth v1 < n -> same v1 v2 ->
  rel_M eq (_build_table title v1 i) (_build_table title v2 i).
Proof.
  induction n as [|n IH]; intros title v1 v2 i Hd Hs; [lia|].
  intros t1 t2 Ht. rewrite !_build_table_eq.
  apply rel_body; auto.
  intros k w1 w2 j Hw Hsw. apply IH; auto. lia.
Qed.

Lemma same_table_scalar_eq t1 t2 :
  same_table t1 t2 -> scalar_cells t1 = true -> t1 = t2.
Proof.
  induction 1 as [|x1 x2 t1 t2 Hx Ht IH]; simpl; [reflexivity|].
  intro H. apply andb_prop in H as [Hc Hr]. f_equal; [|auto].
  destruct Hx as [| |c1 c2 Hc12]; try reflexivity. f_equal.
  clear - Hc Hc12. induction Hc12 as [|v1 v2 c1 c2 Hv Hcs IH]; [reflexivity|].
  simpl in Hc. apply andb_prop in Hc as [Hv1 Hc1].
  f_equal; auto using same_scalar_eq.
Qed.

(** C8, as the code has it.  On two values that are the same up to the
    insertion order of their dictionaries, [_build_table] raises the same
    exception or returns the same result with tables that have the same
    sections and header rows, and rows whose cells are pairwise the same up to
    that order; the tables are equal when every cell is a scalar.  Columns and
    sub-sections never depend on the insertion order. *)
Theorem build_table_same_up_to_cells (title : string) (v1 v2 : Value) (i : nat)
    (t1 t2 : Table) :
  same v1 v2 ->
  same_table t1 t2 ->
  same_res (_build_table title v1 i t1) (_build_table title v2 i t2)
  /\ (forall b s, _build_table title v1 i [] = Ok (b, s) ->
                  scalar_cells s = true ->
                  _build_table title v2 i [] = Ok (b, s)).
Proof.
  intros Hs Ht.
  assert (G : forall s1 s2, same_table s1 s2 ->
                same_res (_build_table title v1 i s1) (_build_table title v2 i s2)).
  { intros s1 s2 H12.
    pose proof (@same_build_fuel (S (depth v1)) title v1 v2 i
                  (Nat.lt_succ_diag_r _) Hs s1 s2 H12) as R.
    unfold same_res.
    destruct (_build_table title v1 i s1) as [[b1 u1]| |],
             (_build_table title v2 i s2) as [[b2 u2]| |]; simpl in R; auto. }
  split; [now apply G|].
  intros b s E Hc. specialize (G [] [] (Forall2_nil _)).
  rewrite E in G. unfold same_res in G.
  destruct (_build_table title v2 i []) as [[b2 u2]| |]; try contradiction.
  destruct G as [<- Hu]. now rewrite (same_table_scalar_eq Hu Hc).
Qed.

Lemma same_volumes : same ex_volumes1 ex_volumes2.
Proof.
  assert (S1 : same (VDict [("Size", VInt 8); ("Id", VStr "v-1")])
                    (VDict [("Id", VStr "v-1"); ("Size", VInt 8)])).
  { constructor.
    - repeat constructor; simpl; intuition discriminate.
    - apply perm_swap.
    - intros k v1 v2. simpl.
      destruct (String.eqb_spec k "Size"), (String.eqb_spec k "Id"); subst;
        try discriminate; intros [= <-] [= <-]; constructor. }
  assert (S2 : same (VDict [("Id", VStr "v-2")]) (VDict [("Id", VStr "v-2")])).
  { constructor.
    - repeat constructor; simpl; intuition.
    - reflexivity.
    - intros k v1 v2. simpl. destruct (String.eqb_spec k "Id");
        try discriminate; intros [= <-] [= <-]; constructor. }
  constructor.
  - repeat constructor; simpl; intuition discriminate.
  - apply perm_swap.
  - intros k v1 v2. simpl.
    destruct (String.eqb_spec k "Volumes"), (String.eqb_spec k "Owner"); subst;
      try discriminate; intros [= <-] [= <-].
    + apply same_list. constructor; [exact S1|]. constructor; [exact S2|constructor].
    + constructor.
Qed.

Lemma build_table_same_up_to_cells_witness :
  same ex_volumes1 ex_volumes2
  /\ same_table [] []
  /\ same_res (_build_table "Volumes" ex_volumes1 0 [])
              (_build_table "Volumes" ex_volumes2 0 [])
  /\ (forall b s, _build_table "Volumes" ex_volumes1 0 [] = Ok (b, s) ->
                  scalar_cells s = true ->
                  _build_table "Volumes" ex_volumes2 0 [] = Ok (b, s)).
Proof.
  split; [exact same_volumes|]. split; [constructor|].
  apply (@build_table_same_up_to_cells "Volumes" ex_volumes1 ex_volumes2 0 [] []).
  - exact same_volumes.
  - constructor.
Defined.

(** C8 as stated fails: a dictionary that sits in a list of other things is
    handed to [add_row] as it is, items in insertion order. *)
Lemma build_table_order_in_cell :
  same ex_mixed1 ex_mixed2
  /\ _build_table "t" ex_mixed1 0 []
     = Ok (true, [NewSection "t" 0; AddRow [VInt 1];
                  AddRow [VDict [("a", VInt 1); ("b", VInt 2)]]])
  /\ _build_table "t" ex_mixed2 0 []
     = Ok (true, [NewSection "t" 0; AddRow [VInt 1];
                  AddRow [VDict [("b", VInt 2); ("a", VInt 1)]]])
  /\ _build_table "t" ex_mixed1 0 [] <> _build_table "t" ex_mixed2 0 [].
Proof.
  split; [|split; [reflexivity|split; [reflexivity|]]].
  - apply same_list. constructor; [constructor|]. constructor; [|constructor].
    apply same_dict.
    + repeat constructor; simpl; intuition discriminate.
    + apply perm_swap.
    + intros k v1 v2. simpl.
      destruct (String.eqb_spec k "a"), (String.eqb_spec k "b"); subst;
        try discriminate; intros [= <-] [= <-]; constructor.
  - vm_compute. discriminate.
Qed.

(** ** What a row cell can hold *)

Lemma row_ok_incl items items' x :
  incl items items' -> row_ok items x -> row_ok items' x.
Proof.
  intros Hi. destruct x; simpl; auto.
  intros [H|(e & -> & He)]; [now left|right; eauto].
Qed.

Lemma rows_ok_incl items items' s :
  incl items items' -> Forall (row_ok items) s -> Forall (row_ok items') s.
Proof.
  intros Hi. apply Forall_impl. intro x. now apply row_ok_incl.
Qed.

Lemma consistent_lookup d k v :
  consistent (VDict d) = true -> dict_lookup d k = Some v -> consistent v = true.
Proof.
  simpl. induction d as [|[k' v'] d IH]; simpl; [discriminate|].
  intro H. apply andb_prop in H as [H1 H2].
  destruct (k =? k')%string; [intros [= <-]; exact H1|auto].
Qed.

Lemma lookup_in d k v : dict_lookup d k = Some v -> In (k, v) d.
Proof.
  induction d as [|[k' v'] d IH]; simpl; [discriminate|].
  destruct (String.eqb_spec k k') as [->|N]; [intros [= ->]; now left|auto].
Qed.

Lemma plain_items_lookup d k v :
  dict_lookup d k = Some v -> incl (plain_items v) (plain_items (VDict d)).
Proof.
  intros H x Hx. simpl. apply in_flat_map. exists (k, v).
  split; [now apply lookup_in|exact Hx].
Qed.

Lemma own_rows_scalar d items : Forall (row_ok items) (own_rows d).
Proof.
  unfold own_rows, row_of.
  assert (G : forall k, In k (py_sorted (scalar_keys d)) ->
                        _scalar_type (dict_get d k (VStr "")) = true).
  { intros k Hk. apply py_sorted_in, scalar_keys_in in Hk.
    unfold has_scalar in Hk. unfold dict_get.
    destruct (dict_lookup d k); [exact Hk|discriminate]. }
  destruct (py_sorted (scalar_keys d)) as [|k1 [|k2 hs]].
  - constructor.
  - constructor; [|constructor]. left. simpl.
    rewrite G by now left. reflexivity.
  - constructor; [exact I|]. constructor; [|constructor]. left.
    apply forallb_forall. intros c Hc. apply in_map_iff in Hc as (k & <- & Hk).
    now apply G.
Qed.

Lemma sub_sections_rows ms i d items :
  (forall k v, In k ms -> dict_lookup d k = Some v ->
               Forall (row_ok items) (stream_of k v (i + 1))) ->
  Forall (row_ok items) (sub_sections ms i d).
Proof.
  intro H. unfold sub_sections. apply Forall_flat_map, Forall_forall.
  intros k Hk. destruct (dict_lookup d k) as [v|] eqn:E; [eauto|constructor].
Qed.

Lemma keys_consistent_cell ds hs d k :
  keys_consistent (map VDict ds) = true ->
  (forall k, In k hs -> exists d1, In d1 ds /\ has_scalar d1 k = true) ->
  In d ds -> In k hs ->
  _scalar_type (dict_get d k (VStr "")) = true.
Proof.
  intros Hc Hh Hd Hk. destruct (Hh k Hk) as (d1 & Hd1 & Hs).
  unfold keys_consistent in Hc. rewrite forallb_forall in Hc.
  specialize (Hc (VDict d1) (in_map VDict _ _ Hd1)).
  rewrite forallb_forall in Hc.
  specialize (Hc (VDict d) (in_map VDict _ _ Hd)).
  rewrite forallb_forall in Hc.
  specialize (Hc k (proj2 (scalar_keys_in d1 k) Hs)). simpl in Hc.
  unfold has_nested in Hc. unfold dict_get.
  destruct (dict_lookup d k) as [v|]; [|reflexivity].
  now destruct (_scalar_type v).
Qed.

Lemma element_block_rows ds hs ms title i fresh d items :
  keys_consistent (map VDict ds) = true ->
  (forall k, In k hs -> exists d1, In d1 ds /\ has_scalar d1 k = true) ->
  In d ds ->
  (forall k v, In k ms -> dict_lookup d k = Some v ->
               Forall (row_ok items) (stream_of k v (i + 1))) ->
  Forall (row_ok items) (element_block hs ms title i fresh d).
Proof.
  intros Hc Hh Hd Hsub. unfold element_block. apply Forall_app. split.
  - destruct fresh; repeat constructor.
  - constructor; [|now apply sub_sections_rows].
    left. apply forallb_forall. intros c Hcell.
    apply in_map_iff in Hcell as (k & <- & Hk).
    eapply keys_consistent_cell; eauto.
Qed.

Lemma stream_of_run title v i b t :
  _build_table title v i [] = Ok (b, t) -> stream_of title v i = t.
Proof. intro E. unfold stream_of. now rewrite E. Qed.

Lemma stream_rows_fuel n : forall title v i,
  depth v < n -> regular v = true -> consistent v = true ->
  Forall (row_ok (plain_items v)) (stream_of title v i).
Proof.
  induction n as [|n IH]; intros title v i Hd Hr Hc; [lia|].
  destruct (py_truthy v) eqn:Ht.
  2:{ erewrite stream_of_run by (now apply build_falsy). constructor. }
  destruct v as [| | | |l|d].
  1-4: erewrite stream_of_run by (now apply build_scalar); repeat constructor.
  - destruct l as [|e l]; [discriminate|].
    destruct (isinstance_dict e) eqn:He.
    + assert (Hall : forallb isinstance_dict (e :: l) = true
                     /\ forallb regular (e :: l) = true
                     /\ keys_consistent (e :: l) = true
                     /\ forallb consistent (e :: l) = true).
      { destruct e; try discriminate. cbn [regular consistent] in Hr, Hc.
        apply andb_prop in Hr as [? ?]. apply andb_prop in Hc as [? ?]. auto. }
      destruct Hall as (Hall & Hreg & Hkc & Hcons).
      destruct (all_dicts _ Hall) as [ds Eds].
      destruct ds as [|d0 rest]; [discriminate|]. rewrite Eds in *.
      destruct (group_from_list_dicts (d0 :: rest)) as (hs & ms & E & _ & _ & I1 & _).
      rewrite forallb_forall in Hreg, Hcons.
      assert (Hsub : forall d k v, In d (d0 :: rest) -> dict_lookup d k = Some v ->
                 Forall (row_ok (plain_items (VList (map VDict (d0 :: rest)))))
                        (stream_of k v (i + 1))).
      { intros d k v Hin Hl.
        assert (In (VDict d) (map VDict (d0 :: rest))) as Hin' by now apply in_map.
        apply rows_ok_incl with (items := plain_items v); [|apply IH].
        - intros x Hx. cbn [plain_items map].
          change (VDict d0 :: map VDict rest) with (map VDict (d0 :: rest)).
          apply in_flat_map. exists (VDict d). split; auto.
          eapply plain_items_lookup; eauto.
        - apply depth_lookup in Hl. apply depth_in in Hin'. lia.
        - eapply regular_lookup; eauto.
        - eapply consistent_lookup; eauto. }
      erewrite stream_of_run.
      2:{ eapply build_dicts_stream; eauto.
          intros d k v Hin _ Hl. eapply regular_list_children; eauto. }
      cbn [app]. constructor; [exact I|]. constructor; [exact I|].
      assert (Hblock : forall fresh d, In d (d0 :: rest) ->
                Forall (row_ok (plain_items (VList (map VDict (d0 :: rest)))))
                       (element_block hs ms title i fresh d)).
      { intros fresh d Hin. eapply element_block_rows; eauto.
        intros k Hk. now apply I1. }
      apply Forall_app. split; [apply Hblock; now left|].
      apply Forall_flat_map, Forall_forall. intros d Hin. apply Hblock. now right.
    + erewrite stream_of_run by (now apply build_plain_list).
      cbn [app]. constructor; [exact I|].
      apply Forall_forall. intros x Hx. apply in_map_iff in Hx as (c & <- & Hin).
      right. exists c. split; auto. destruct e; try discriminate; exact Hin.
  - destruct d as [|kv d]; [discriminate|].
    erewrite stream_of_run.
    2:{ apply build_dict_stream; [discriminate|].
        intros k v Hl _. eapply regular_children; eauto. }
    cbn [app]. constructor; [exact I|]. apply Forall_app. split.
    + apply own_rows_scalar.
    + apply sub_sections_rows. intros k v _ Hl.
      apply rows_ok_incl with (items := plain_items v); [|apply IH].
      * eapply plain_items_lookup; eauto.
      * apply depth_lookup in Hl. lia.
      * eapply regular_lookup; eauto.
      * eapply consistent_lookup; eauto.
Qed.

(** C1, as the code has it.  On a value where the lists of dictionaries hold
    dictionaries only and no key of such a list has a scalar value in one
    element and a list or dictionary value in another, the call returns and
    every row either holds scalars only or is the single-cell row of an
    element of a list whose first element is not a dictionary; such an element
    is placed in its row as it is, lists and dictionaries included.  When
    these lists hold scalars only, every cell is a scalar. *)
Theorem build_table_row_cells (title : string) (v : Value) (i : nat) :
  regular v = true ->
  consistent v = true ->
  exists b t,
    _build_table title v i [] = Ok (b, t)
    /\ (forall cells, In (AddRow cells) t ->
          forallb _scalar_type cells = true
          \/ exists e, cells = [e] /\ In e (plain_items v))
    /\ (forallb _scalar_type (plain_items v) = true -> scalar_cells t = true).
Proof.
  intros Hr Hc. destruct (@regular_returns title v i Hr) as [[b t] E].
  exists b, t. split; [exact E|].
  pose proof (@stream_rows_fuel (S (depth v)) title v i
                (Nat.lt_succ_diag_r _) Hr Hc) as F.
  rewrite (@stream_of_run _ _ _ _ _ E) in F. rewrite Forall_forall in F.
  split.
  - intros cells Hin. exact (F _ Hin).
  - intro Hp. rewrite forallb_forall in Hp.
    unfold scalar_cells. apply forallb_forall. intros x Hx.
    specialize (F x Hx). destruct x as [| |cells]; auto.
    destruct F as [F|(e & -> & He)]; [exact F|].
    simpl. now rewrite (Hp e He).
Qed.

Lemma build_table_row_cells_witness :
  regular ex_cells = true
  /\ consistent ex_cells = true
  /\ exists b t,
       _build_table "Host" ex_cells 0 [] = Ok (b, t)
       /\ (forall cells, In (AddRow cells) t ->
             forallb _scalar_type cells = true
             \/ exists e, cells = [e] /\ In e (plain_items ex_cells))
       /\ (forallb _scalar_type (plain_items ex_cells) = true ->
           scalar_cells t = true).
Proof.
  split; [reflexivity|]. split; [reflexivity|].
  apply (@build_table_row_cells "Host" ex_cells 0); reflexivity.
Defined.

(** C1 as stated fails: the elements of a list of lists are lists, and each
    is the cell of its row. *)
Lemma build_table_container_cell :
  exists t,
    _build_table "t" ex_nested_list 0 [] = Ok (true, t)
    /\ In (AddRow [VList [VInt 1; VInt 2]]) t
    /\ _scalar_type (VList [VInt 1; VInt 2]) = false
    /\ scalar_cells t = false.
Proof.
  eexists. split; [reflexivity|]. split; [right; left; reflexivity|].
  split; reflexivity.
Qed.

(** A key that is scalar in one element and a list in another is both a
    column and a sub-section: the list lands in the row of its element. *)
Lemma build_table_mixed_kind_key :
  _build_table "t" ex_kinds 0 []
  = Ok (true, [NewSection "t" 0; AddHeaderRow ["k"]; AddRow [VInt 1];
               NewSection "k" 1;
               NewSection "t" 0; AddHeaderRow ["k"]; AddRow [VList [VInt 2]];
               NewSection "k" 1; AddRow [VInt 2]]).
Proof. reflexivity. Qed.

(** * Further properties of the formatters *)

(** ** An induction principle for the streams of regular values *)

Lemma regular_stream_ind (P : string -> nat -> Table -> Prop) :
  (forall title i, P title i []) ->
  (forall title i, P title i [NewSection title i]) ->
  (forall title i e l, isinstance_dict e = false ->
     P title i (NewSection title i :: map (fun item => AddRow [item]) (e :: l))) ->
  (forall title i d, d <> [] ->
     (forall k v, dict_lookup d k = Some v -> P k (i + 1) (stream_of k v (i + 1))) ->
     P title i (NewSection title i ::
                own_rows d ++ sub_sections (py_sorted (nested_keys d)) i d)) ->
  (forall title i d0 rest hs ms,
     _group_scalar_keys_from_list (map VDict (d0 :: rest)) = Ok (hs, ms) ->
     (forall d k v, In d (d0 :: rest) -> dict_lookup d k = Some v ->
                    P k (i + 1) (stream_of k v (i + 1))) ->
     P title i (NewSection title i :: AddHeaderRow hs ::
                element_block hs ms title i false d0
                ++ flat_map (element_block hs ms title i (nonempty ms)) rest)) ->
  forall v title i, regular v = true -> P title i (stream_of title v i).
Proof.
  intros Hnil Hsec Hplain Hdict Hlist v.
  assert (G : forall n v title i, depth v < n -> regular v = true ->
                                  P title i (stream_of title v i)).
  { clear v. induction n as [|n IH]; intros v title i Hd Hr; [lia|].
    destruct (py_truthy v) eqn:Ht.
    2:{ erewrite stream_of_run by (now apply build_falsy). apply Hnil. }
    destruct v as [| | | |l|d].
    1-4: erewrite stream_of_run by (now apply build_scalar); apply Hsec.
    - destruct l as [|e l]; [discriminate|].
      destruct (isinstance_dict e) eqn:He.
      + assert (Hall : forallb isinstance_dict (e :: l) = true
                       /\ forallb regular (e :: l) = true).
        { destruct e; try discriminate. cbn [regular] in Hr.
          now apply andb_prop in Hr. }
        destruct Hall as [Hall Hreg]. destruct (all_dicts _ Hall) as [ds Eds].
        destruct ds as [|d0 rest]; [discriminate|]. rewrite Eds in *.
        destruct (group_from_list_dicts (d0 :: rest)) as (hs & ms & E & _).
        erewrite stream_of_run.
        2:{ eapply build_dicts_stream; eauto.
            intros d k v Hin _ Hl. eapply regular_list_children; eauto. }
        cbn [app]. apply Hlist; auto.
        intros d k v Hin Hl. rewrite forallb_forall in Hreg.
        assert (In (VDict d) (map VDict (d0 :: rest))) as Hin' by now apply in_map.
        apply IH.
        * apply depth_lookup in Hl. apply depth_in in Hin'. lia.
        * eapply regular_lookup; eauto.
      + erewrite stream_of_run by (now apply build_plain_list).
        cbn [app]. now apply Hplain.
    - destruct d as [|kv d]; [discriminate|].
      erewrite stream_of_run.
      2:{ apply build_dict_stream; [discriminate|].
          intros k v Hl _. eapply regular_children; eauto. }
      cbn [app]. apply Hdict; [discriminate|].
      intros k v Hl. apply IH.
      + apply depth_lookup in Hl. lia.
      + eapply regular_lookup; eauto. }
  intros title i. apply (G (S (depth v))). lia.
Qed.

Lemma regular_stream title v i :
  regular v = true ->
  exists b, _build_table title v i [] = Ok (b, stream_of title v i).
Proof.
  intro Hr. destruct (@regular_returns title v i Hr) as [[b s] E].
  exists b. now rewrite (@stream_of_run _ _ _ _ _ E).
Qed.

Lemma sub_sections_all (Q : Table -> Prop) ms i d :
  Q [] -> (forall a b, Q a -> Q b -> Q (a ++ b)) ->
  (forall k v, dict_lookup d k = Some v -> Q (stream_of k v (i + 1))) ->
  Q (sub_sections ms i d).
Proof.
  intros Hnil Happ H. unfold sub_sections. induction ms as [|k ms IH]; simpl; auto.
  apply Happ; auto. destruct (dict_lookup d k) eqn:E; auto.
Qed.

Lemma flat_map_all {A} (Q : Table -> Prop) (f : A -> Table) xs :
  Q [] -> (forall a b, Q a -> Q b -> Q (a ++ b)) ->
  (forall x, In x xs -> Q (f x)) -> Q (flat_map f xs).
Proof.
  intros Hnil Happ H. induction xs as [|x xs IH]; simpl; auto.
  apply Happ; [apply H; now left|]. apply IH. intros. apply H. now right.
Qed.

(** ** Levels and alignment *)

Lemma section_from_weaken i s :
  Forall (section_from (i + 1)) s -> Forall (section_from i) s.
Proof.
  apply Forall_impl. intros [t j| |]; simpl; auto. lia.
Qed.

Lemma own_rows_section_from i d : Forall (section_from i) (own_rows d).
Proof.
  eapply Forall_impl; [|apply own_rows_no_section].
  intros [t j| |]; simpl; tauto.
Qed.

Lemma element_block_section_from hs ms title i fresh d :
  (forall k v, dict_lookup d k = Some v ->
               Forall (section_from (i + 1)) (stream_of k v (i + 1))) ->
  Forall (section_from i) (element_block hs ms title i fresh d).
Proof.
  intro H. unfold element_block. apply Forall_app. split.
  - destruct fresh; repeat constructor.
  - constructor; [exact I|].
    apply sub_sections_all with (Q := Forall (section_from i)); [constructor| |].
    + intros a b Ha Hb. apply Forall_app. now split.
    + intros k v Hl. apply section_from_weaken. eauto.
Qed.

(** X5. On a regular value the call returns, and no section it opens, at any
    depth, is at a level below the level it was called with. *)
Theorem build_table_levels (title : string) (v : Value) (i : nat) :
  regular v = true ->
  exists b s,
    _build_table title v i [] = Ok (b, s) /\ Forall (section_from i) s.
Proof.
  intro Hr. destruct (@regular_stream title v i Hr) as [b E].
  exists b, (stream_of title v i). split; [exact E|].
  clear b E. revert v title i Hr.
  apply (regular_stream_ind (fun _ i s => Forall (section_from i) s)).
  - constructor.
  - intros. repeat constructor.
  - intros title i e l _. constructor; [simpl; lia|].
    apply Forall_forall. intros x Hx. apply in_map_iff in Hx as (c & <- & _). exact I.
  - intros title i d _ IH. constructor; [simpl; lia|].
    apply Forall_app. split; [apply own_rows_section_from|].
    apply sub_sections_all with (Q := Forall (section_from i)); [constructor| |].
    + intros a b Ha Hb. apply Forall_app. now split.
    + intros k v Hl. apply section_from_weaken. eauto.
  - intros title i d0 rest hs ms _ IH.
    constructor; [simpl; lia|]. constructor; [exact I|].
    apply Forall_app. split.
    + apply element_block_section_from. intros. eapply IH; eauto. now left.
    + apply flat_map_all with (Q := Forall (section_from i)); [constructor| |].
      * intros a b Ha Hb. apply Forall_app. now split.
      * intros d Hd. apply element_block_section_from.
        intros. eapply IH; eauto. now right.
Qed.

Lemma build_table_levels_witness :
  regular (VDict ex_instance) = true
  /\ exists b s,
       _build_table "Instance" (VDict ex_instance) 2 [] = Ok (b, s)
       /\ Forall (section_from 2) s.
Proof.
  split; [reflexivity|].
  apply (@build_table_levels "Instance" (VDict ex_instance) 2). reflexivity.
Defined.

Lemma aligned_app a b :
  aligned a = true -> aligned b = true -> aligned (a ++ b) = true.
Proof.
  intros Ha Hb. induction a as [|x a IH]; [exact Hb|].
  destruct x as [t j|labels|cells]; cbn [app aligned] in *; auto.
  destruct a as [|[| |cells] a']; try discriminate.
  cbn [app] in *. apply andb_prop in Ha as [H1 H2].
  rewrite H1. cbn [andb]. now apply IH.
Qed.

Lemma aligned_rows l : aligned (map (fun item => AddRow [item]) l) = true.
Proof. induction l; simpl; auto. Qed.

Lemma aligned_own_rows d : aligned (own_rows d) = true.
Proof.
  unfold own_rows, row_of.
  destruct (py_sorted (scalar_keys d)) as [|k1 [|k2 hs]]; try reflexivity.
  cbn [aligned]. rewrite length_map, Nat.eqb_refl. reflexivity.
Qed.

Lemma aligned_element_block hs ms title i fresh d :
  (forall k v, dict_lookup d k = Some v -> aligned (stream_of k v (i + 1)) = true) ->
  aligned (element_block hs ms title i fresh d) = true.
Proof.
  intro H. unfold element_block, row_of.
  assert (Hs : aligned (sub_sections ms i d) = true).
  { apply sub_sections_all with (Q := fun s => aligned s = true);
      auto using aligned_app. }
  destruct fresh; cbn [app aligned]; auto.
  rewrite length_map, Nat.eqb_refl. exact Hs.
Qed.

(** X6. On a regular value the call returns a table in which every header
    row is followed at once by a row with as many cells as the header has
    labels. *)
Theorem build_table_aligned (title : string) (v : Value) (i : nat) :
  regular v = true ->
  exists b s, _build_table title v i [] = Ok (b, s) /\ aligned s = true.
Proof.
  intro Hr. destruct (@regular_stream title v i Hr) as [b E].
  exists b, (stream_of title v i). split; [exact E|].
  clear b E. revert v title i Hr.
  apply (regular_stream_ind (fun _ _ s => aligned s = true)).
  - reflexivity.
  - reflexivity.
  - intros title i e l _. cbn [aligned]. apply aligned_rows.
  - intros title i d _ IH. cbn [aligned].
    apply aligned_app; [apply aligned_own_rows|].
    apply sub_sections_all with (Q := fun s => aligned s = true);
      auto using aligned_app.
  - intros title i d0 rest hs ms _ IH. cbn [aligned].
    unfold element_block at 1. cbn [app]. unfold row_of at 1.
    rewrite length_map, Nat.eqb_refl. cbn [andb aligned].
    apply aligned_app.
    + apply sub_sections_all with (Q := fun s => aligned s = true);
        auto using aligned_app.
      intros. eapply IH; eauto. now left.
    + apply flat_map_all with (Q := fun s => aligned s = true);
        auto using aligned_app.
      intros d Hd. apply aligned_element_block. intros. eapply IH; eauto. now right.
Qed.

Lemma build_table_aligned_witness :
  regular (VList (map VDict (ex_item0 :: [ex_item1]))) = true
  /\ exists b s,
       _build_table "Items" (VList (map VDict (ex_item0 :: [ex_item1]))) 0 []
       = Ok (b, s)
       /\ aligned s = true.
Proof.
  split; [reflexivity|].
  apply (@build_table_aligned "Items" (VList (map VDict (ex_item0 :: [ex_item1]))) 0).
  reflexivity.
Defined.

(** ** What a call returns and what it leaves in the table *)

(** X1. When [_build_table] returns, its result is the truth value of
    [current]: [True] with the table extended by a section titled [title] at
    level [i] (and what follows it), [False] with the table as it was. *)
Theorem build_table_returns_truthiness (title : string) (v : Value) (i : nat)
    (t t' : Table) (b : bool) :
  _build_table title v i t = Ok (b, t') ->
  b = py_truthy v
  /\ (if b then exists s, t' = t ++ NewSection title i :: s else t' = t).
Proof.
  rewrite framed_build_table.
  destruct (build_shape title v i) as [[Ht E]|[[s E]|[e E]]]; rewrite E; simpl.
  - intros [= <- <-]. rewrite Ht, app_nil_r. auto.
  - intros [= <- <-]. split; [|eauto].
    destruct (py_truthy v) eqn:Ht; [reflexivity|].
    rewrite (@build_falsy title v i [] Ht) in E. discriminate.
  - discriminate.
Qed.

Lemma build_table_returns_truthiness_witness :
  _build_table "Colors" (VList [VStr "red"]) 1 [AddRow [VInt 0]]
  = Ok (true, [AddRow [VInt 0]; NewSection "Colors" 1; AddRow [VStr "red"]])
  /\ true = py_truthy (VList [VStr "red"])
  /\ exists s, [AddRow [VInt 0]; NewSection "Colors" 1; AddRow [VStr "red"]]
               = [AddRow [VInt 0]] ++ NewSection "Colors" 1 :: s.
Proof.
  split; [reflexivity|].
  apply (@build_table_returns_truthiness "Colors" (VList [VStr "red"]) 1
           [AddRow [VInt 0]] _ true).
  reflexivity.
Defined.

(** X2. [_build_table] only appends: what it returns on a table [t] is what
    it returns on the empty table with [t] in front, and it raises on [t]
    exactly when it raises on the empty table. *)
Theorem build_table_appends (title : string) (v : Value) (i : nat) (t : Table) :
  _build_table title v i t
  = match _build_table title v i [] with
    | Ok (b, s) => Ok (b, t ++ s)
    | Raise e => Raise e
    | Unfinished => Unfinished
    end.
Proof. apply framed_build_table. Qed.

(** X3. A scalar that is not false (a non-empty string, a number other than
    zero, [True]) gives a section with nothing in it, and [_format_response]
    renders the table. *)
Theorem format_response_scalar (self : TableFormatter) (name : string)
    (v : Value) :
  _scalar_type v = true ->
  py_truthy v = true ->
  exists self',
    _format_response self name v = Ok (self', Some (table self'))
    /\ calls (table self') = calls (table self) ++ [NewSection name 0].
Proof.
  intros Hs Ht. unfold _format_response.
  rewrite (@build_scalar name v 0 _ Ht Hs). eexists. split; reflexivity.
Qed.

Lemma format_response_scalar_witness :
  _scalar_type (VStr "done") = true
  /\ py_truthy (VStr "done") = true
  /\ exists self',
       _format_response (mkTableFormatter "off" (mkMultiTable false "|" (Some Styler) []))
         "Op" (VStr "done")
       = Ok (self', Some (table self'))
       /\ calls (table self')
          = calls (table (mkTableFormatter "off"
                            (mkMultiTable false "|" (Some Styler) [])))
            ++ [NewSection "Op" 0].
Proof.
  split; [reflexivity|]. split; [reflexivity|].
  apply (@format_response_scalar
           (mkTableFormatter "off" (mkMultiTable false "|" (Some Styler) []))
           "Op" (VStr "done")); reflexivity.
Defined.

Lemma group_ok_or_type_error e :
  (exists r, _group_scalar_keys e = Ok r) \/ _group_scalar_keys e = Raise TypeError.
Proof.
  destruct e as [| | |s|l|d]; simpl; auto.
  - destruct s; eauto.
  - destruct l; eauto.
  - left. change (exists r, _group_scalar_keys (VDict d) = Ok r).
    rewrite _group_scalar_keys_dict. eauto.
Qed.

Lemma not_groupable_raises e :
  not_groupable e = true -> _group_scalar_keys e = Raise TypeError.
Proof. destruct e as [| | |s|l|d]; simpl; try discriminate; auto. now destruct s. Qed.

Lemma group_list_loop_raises l : forall hs ms,
  Exists (fun e => not_groupable e = true) l ->
  group_list_loop l hs ms = Raise TypeError.
Proof.
  induction l as [|e l IH]; intros hs ms H; [inversion H|]. cbn [group_list_loop].
  destruct (group_ok_or_type_error e) as [[[ch cm] E]|E]; rewrite E; [|reflexivity].
  cbn [res_bind]. apply IH. inversion H as [? ? Hb|]; subst; auto.
  rewrite (not_groupable_raises _ Hb) in E. discriminate.
Qed.

(** X4. A list of dictionaries and scalars that starts with a dictionary and
    holds, anywhere, [None], a boolean, a number or a non-empty string makes
    [_build_table] raise TypeError. *)
Theorem build_table_ungroupable_raises (title : string) (d0 : Dict)
    (l : list Value) (i : nat) (t : Table) :
  Forall (fun e => isinstance_list e = false) l ->
  Exists (fun e => not_groupable e = true) l ->
  _build_table title (VList (VDict d0 :: l)) i t = Raise TypeError.
Proof.
  intros _ H. rewrite _build_table_eq. unfold build_table_body. cbn [py_truthy negb].
  unfold bind at 1. unfold new_section.
  unfold bind at 1. unfold _build_sub_table_from_list.
  unfold bind at 1. unfold lift, _group_scalar_keys_from_list.
  rewrite group_list_loop_raises; [reflexivity|]. now apply Exists_cons_tl.
Qed.

Lemma build_table_ungroupable_raises_witness :
  Forall (fun e => isinstance_list e = false) [VDict [("b", VInt 2)]; VNone]
  /\ Exists (fun e => not_groupable e = true) [VDict [("b", VInt 2)]; VNone]
  /\ _build_table "t" (VList (VDict [("a", VInt 1)] :: [VDict [("b", VInt 2)]; VNone]))
       0 [] = Raise TypeError.
Proof.
  assert (F : Forall (fun e => isinstance_list e = false)
                     [VDict [("b", VInt 2)]; VNone]) by (repeat constructor).
  assert (H : Exists (fun e => not_groupable e = true) [VDict [("b", VInt 2)]; VNone]).
  { apply Exists_cons_tl. apply Exists_cons_hd. reflexivity. }
  split; [exact F|]. split; [exact H|].
  apply (@build_table_ungroupable_raises "t" [("a", VInt 1)] _ 0 [] F H).
Defined.

Lemma filter_partition_perm (p q : string -> bool) l :
  (forall k, In k l -> q k = negb (p k)) ->
  Permutation l (filter p l ++ filter q l).
Proof.
  induction l as [|x l IH]; intro H; simpl; [constructor|].
  rewrite (H x (or_introl eq_refl)).
  assert (IH' := IH (fun k Hk => H k (or_intror Hk))).
  destruct (p x); simpl.
  - now constructor.
  - now apply Permutation_cons_app.
Qed.

(** X7. [_group_scalar_keys] splits the keys of a dictionary in two sorted
    lists that together hold every key once for each time the dictionary has
    it: the first holds the keys with a scalar value, the second the keys with
    a list or dictionary value. *)
Theorem group_scalar_keys_partition (d : Dict) :
  exists headers more,
    _group_scalar_keys (VDict d) = Ok (headers, more)
    /\ Permutation (dict_keys d) (headers ++ more)
    /\ StronglySorted str_le headers
    /\ StronglySorted str_le more
    /\ (forall k, In k headers ->
          exists v, dict_lookup d k = Some v /\ _scalar_type v = true)
    /\ (forall k, In k more ->
          exists v, dict_lookup d k = Some v /\ _scalar_type v = false).
Proof.
  exists (py_sorted (scalar_keys d)), (py_sorted (nested_keys d)).
  split; [apply _group_scalar_keys_dict|]. split; [|split; [|split; [|split]]].
  - rewrite <- (py_sorted_perm (scalar_keys d)), <- (py_sorted_perm (nested_keys d)).
    apply filter_partition_perm. intros k Hk.
    apply lookup_in_keys in Hk as [v Hv]. unfold has_nested, has_scalar.
    now rewrite Hv.
  - apply py_sorted_sorted.
  - apply py_sorted_sorted.
  - intros k Hk. now apply py_sorted_in, scalar_keys_in, has_scalar_iff in Hk.
  - intros k Hk. now apply py_sorted_in, nested_keys_in, has_nested_iff in Hk.
Qed.

(** X8. A formatter keeps its table from one call to the next: when two
    calls of [_format_response] on the same formatter both render, the table
    rendered by the second is the table rendered by the first followed by the
    directives of the second response. *)
Theorem format_response_accumulates (self self1 self2 : TableFormatter)
    (n1 n2 : string) (v1 v2 : Value) (t1 t2 : MultiTable) :
  _format_response self n1 v1 = Ok (self1, Some t1) ->
  _format_response self1 n2 v2 = Ok (self2, Some t2) ->
  calls t2 = calls t1 ++ stream_of n2 v2 0
  /\ exists s, stream_of n2 v2 0 = NewSection n2 0 :: s.
Proof.
  unfold _format_response. intros H1 H2.
  destruct (_build_table n1 v1 0 (calls (table self))) as [[b1 c1]| |];
    try discriminate.
  destruct b1; try discriminate. injection H1 as <- <-.
  cbn [table calls with_calls] in H2.
  rewrite framed_build_table in H2.
  destruct (build_shape n2 v2 0) as [[_ E]|[[s E]|[e E]]];
    rewrite E in H2; cbn [shift] in H2; try discriminate.
  injection H2 as <- <-. cbn [table calls with_calls].
  rewrite (@stream_of_run _ _ _ _ _ E). eauto.
Qed.

Lemma format_response_accumulates_witness :
  exists self1 self2 t1 t2,
    _format_response (mkTableFormatter "auto" (mkMultiTable false "|" None []))
      "A" (VList [VInt 1]) = Ok (self1, Some t1)
    /\ _format_response self1 "B" (VList [VInt 2]) = Ok (self2, Some t2)
    /\ calls t2 = calls t1 ++ stream_of "B" (VList [VInt 2]) 0
    /\ exists s, stream_of "B" (VList [VInt 2]) 0 = NewSection "B" 0 :: s.
Proof.
  do 4 eexists. split; [reflexivity|]. split; [reflexivity|].
  eapply (@format_response_accumulates
            (mkTableFormatter "auto" (mkMultiTable false "|" None []))
            _ _ "A" "B" (VList [VInt 1]) (VList [VInt 2])); reflexivity.
Defined.

(** ** The response filter on any response *)

Lemma remove_request_id_dict d :
  (forall md, dict_lookup d "ResponseMetadata" = Some md ->
              isinstance_dict md = true) ->
  _remove_request_id (VDict d)
  = Ok (VDict match dict_lookup d "Errors" with
              | Some _ => d
              | None => dict_del d "ResponseMetadata"
              end).
Proof.
  intro Hmd. unfold _remove_request_id. cbn [py_in res_bind].
  destruct (dict_lookup d "Errors") as [errs|]; cbn [negb]; [reflexivity|].
  destruct (dict_lookup d "ResponseMetadata") as [md|] eqn:Em.
  - cbn [py_getitem res_bind]. rewrite Em.
    specialize (Hmd md eq_refl). destruct md as [| | | | |m]; try discriminate.
    cbn [res_bind py_in]. unfold py_delitem. rewrite Em.
    destruct (dict_lookup m "RequestId") eqn:Er; cbn [py_getitem res_bind].
    + rewrite Er. reflexivity.
    + reflexivity.
  - now rewrite dict_del_absent.
Qed.

Lemma remove_request_id_cases v r :
  _remove_request_id v = Ok r ->
  r = v
  \/ exists d, v = VDict d /\ r = VDict (dict_del d "ResponseMetadata")
               /\ dict_lookup d "Errors" = None.
Proof.
  unfold _remove_request_id.
  destruct (py_in "Errors" v) as [has_errors| |] eqn:E1; try discriminate.
  cbn [res_bind]. destruct has_errors; cbn [negb]; [intros [= <-]; now left|].
  destruct (py_in "ResponseMetadata" v) as [has_md| |] eqn:E2; try discriminate.
  cbn [res_bind]. destruct has_md; [|intros [= <-]; now left].
  destruct v as [| | | | |d]; try discriminate.
  cbn [py_getitem]. destruct (dict_lookup d "ResponseMetadata") as [md|] eqn:Em;
    [|discriminate].
  cbn [res_bind].
  destruct (py_in "RequestId" md) as [has_id| |]; try discriminate. cbn [res_bind].
  destruct (if has_id then res_bind (py_getitem md "RequestId") (fun _ => Ok tt)
            else Ok tt) as [[]| |]; try discriminate.
  cbn [res_bind]. unfold py_delitem. rewrite Em. intros [= <-]. right.
  exists d. repeat split. simpl in E1.
  destruct (dict_lookup d "Errors"); [discriminate|reflexivity].
Qed.

(** X9. [_remove_request_id] does nothing the second time: on the response
    it has left, it returns and leaves it as it is, whatever the response
    (a dictionary, a string, a list). *)
Theorem remove_request_id_idempotent (v r : Value) :
  _remove_request_id v = Ok r -> _remove_request_id r = Ok r.
Proof.
  intro H. destruct (remove_request_id_cases _ H) as [->|(d & -> & -> & He)];
    [exact H|].
  unfold _remove_request_id. cbn [py_in res_bind].
  rewrite dict_del_lookup_other by discriminate. rewrite He. cbn [negb].
  now rewrite dict_del_lookup_same.
Qed.

Lemma remove_request_id_idempotent_witness :
  _remove_request_id (VDict ex_response)
  = Ok (VDict [("Reservations", VList []); ("NextToken", VStr "n")])
  /\ _remove_request_id (VDict [("Reservations", VList []); ("NextToken", VStr "n")])
     = Ok (VDict [("Reservations", VList []); ("NextToken", VStr "n")]).
Proof.
  split; [reflexivity|].
  apply (@remove_request_id_idempotent (VDict ex_response)). reflexivity.
Defined.

(** ** The text formatter *)

Lemma classify_non_scalars items : forall sc ns,
  snd (TextFormatter.classify items sc ns)
  = ns ++ filter (fun kv => negb (_scalar_type (snd kv))) items.
Proof.
  induction items as [|[k v] items IH]; intros sc ns; simpl.
  - now rewrite app_nil_r.
  - destruct v; simpl; rewrite IH; rewrite <- ?app_assoc; reflexivity.
Qed.

Lemma for_writes_ok {A} (xs : list A) (body : A -> Res (list string)) g :
  (forall x, In x xs -> body x = Ok (g x)) ->
  TextFormatter.for_writes xs body = Ok (flat_map g xs).
Proof.
  induction xs as [|x xs IH]; intro H; simpl; [reflexivity|].
  unfold TextFormatter.writes_then. rewrite H by now left. cbn [res_bind].
  rewrite IH by (intros; apply H; now right). reflexivity.
Qed.

Lemma flat_map_filter {A B} (p : A -> bool) (f : A -> list B) xs :
  flat_map f (filter p xs) = flat_map (fun x => if p x then f x else []) xs.
Proof.
  induction xs as [|x xs IH]; simpl; [reflexivity|].
  destruct (p x); simpl; now rewrite IH.
Qed.

Lemma depth_item d k v : In (k, v) d -> depth v < depth (VDict d).
Proof.
  simpl. induction d as [|[k' v'] d IH]; simpl; [tauto|].
  intros [[= -> ->]|H]; [lia|]. specialize (IH H). lia.
Qed.

Lemma output_fuel_writes n : forall data label,
  depth data < n ->
  TextFormatter.output_fuel n data label = Ok (text_writes data label).
Proof.
  induction n as [|n IH]; intros data label Hd; [lia|].
  cbn [TextFormatter.output_fuel]. unfold TextFormatter.output_body.
  destruct data as [| | | |l|d]; try reflexivity.
  - cbn [text_writes]. apply for_writes_ok. intros x Hx. apply IH.
    apply depth_in in Hx. lia.
  - cbn [text_writes].
    pose proof (classify_non_scalars d [] []) as Hns.
    destruct (TextFormatter.classify d [] []) as [scalars non_scalars].
    cbn [fst snd app] in *. subst non_scalars.
    unfold TextFormatter.writes_then. cbn [res_bind].
    rewrite (@for_writes_ok _ _ _
               (fun kv => text_writes (snd kv) (Some (fst kv)))).
    + cbn [res_bind]. rewrite flat_map_filter. do 2 f_equal.
      cbn [app]. do 2 f_equal. apply flat_map_ext. intros [k v]. cbn [fst snd].
      now destruct (_scalar_type v).
    + intros [k v] Hin. apply filter_In in Hin as [Hin _]. cbn [fst snd].
      apply IH. apply depth_item in Hin. lia.
Qed.

Lemma _output_writes data label :
  TextFormatter._output data label = Ok (text_writes data label).
Proof. apply output_fuel_writes. lia. Qed.

Lemma lines_of_app_len n : forall a b la lb,
  List.length a <= n ->
  lines_of a = Some la -> lines_of b = Some lb ->
  lines_of (a ++ b) = Some (la ++ lb).
Proof.
  induction n as [|n IH]; intros a b la lb Hn Ha Hb.
  - destruct a; [|simpl in Hn; lia]. injection Ha as <-. exact Hb.
  - destruct a as [|x [|sep rest]].
    + injection Ha as <-. exact Hb.
    + discriminate.
    + cbn [lines_of app] in *. destruct (sep =? nl); [|discriminate].
      destruct (lines_of rest) as [lr|] eqn:Er; [|discriminate].
      injection Ha as <-. rewrite (IH rest b lr lb); auto.
      simpl in Hn. lia.
Qed.

Lemma lines_of_app a b la lb :
  lines_of a = Some la -> lines_of b = Some lb ->
  lines_of (a ++ b) = Some (la ++ lb).
Proof. apply (@lines_of_app_len (List.length a)). lia. Qed.

Lemma lines_of_flat_map {A} (f : A -> list string) (c : A -> nat) xs :
  (forall x, In x xs -> exists lines, lines_of (f x) = Some lines
                                      /\ List.length lines = c x) ->
  exists lines, lines_of (flat_map f xs) = Some lines
                /\ List.length lines = fold_right (fun x n => c x + n) 0 xs.
Proof.
  induction xs as [|x xs IH]; intro H; simpl.
  - exists []. auto.
  - destruct (H x (or_introl eq_refl)) as (lx & Ex & Lx).
    destruct (IH (fun y Hy => H y (or_intror Hy))) as (lr & Er & Lr).
    exists (lx ++ lr). split; [now apply lines_of_app|].
    rewrite length_app. lia.
Qed.

Lemma text_writes_lines n : forall data label,
  depth data < n ->
  exists lines, lines_of (text_writes data label) = Some lines
                /\ List.length lines = count_dicts data.
Proof.
  induction n as [|n IH]; intros data label Hd; [lia|].
  destruct data as [| | | |l|d]; try (exists []; split; reflexivity).
  - cbn [text_writes count_dicts].
    apply lines_of_flat_map with (c := count_dicts).
    intros x Hx. apply IH. apply depth_in in Hx. lia.
  - cbn [text_writes count_dicts].
    destruct (@lines_of_flat_map _
                (fun kv => if _scalar_type (snd kv) then []
                           else text_writes (snd kv) (Some (fst kv)))
                (fun kv => count_dicts (snd kv)) d) as (lr & Er & Lr).
    { intros [k v] Hin. cbn [fst snd]. destruct (_scalar_type v) eqn:Es.
      - exists []. split; [reflexivity|]. destruct v; try discriminate; reflexivity.
      - apply IH. apply depth_item in Hin. lia. }
    eexists. split.
    + cbn [app lines_of]. rewrite String.eqb_refl, Er. reflexivity.
    + cbn [List.length option_map]. now rewrite Lr.
Qed.

(** X10. [TextFormatter._output] never raises and writes one line, ended by
    a newline, for each dictionary in the response, at any depth; scalars and
    lists give no line of their own. *)
Theorem text_output_lines (data : Value) (label : option string) :
  exists ws lines,
    TextFormatter._output data label = Ok ws
    /\ lines_of ws = Some lines
    /\ List.length lines = count_dicts data.
Proof.
  destruct (@text_writes_lines (S (depth data)) data label) as (lines & E & L); [lia|].
  exists (text_writes data label), lines. split; [apply _output_writes|auto].
Qed.

(** X11. For a list, [_output] ignores the label it is given and writes what
    it writes for each element in turn, so the output of two lists put end to
    end is the output of the first followed by the output of the second. *)
Theorem text_output_list_append (l1 l2 : list Value) (label : option string) :
  exists w1 w2,
    TextFormatter._output (VList l1) None = Ok w1
    /\ TextFormatter._output (VList l2) None = Ok w2
    /\ TextFormatter._output (VList (l1 ++ l2)) label = Ok (w1 ++ w2).
Proof.
  exists (text_writes (VList l1) None), (text_writes (VList l2) None).
  rewrite !_output_writes. repeat split.
  cbn [text_writes]. now rewrite flat_map_app.
Qed.

Lemma classify_strings kvs : forall sc ns,
  TextFormatter.classify (map (fun kv => (fst kv, VStr (snd kv))) kvs) sc ns
  = (sc ++ map snd kvs, ns).
Proof.
  induction kvs as [|[k s] kvs IH]; intros sc ns; simpl.
  - now rewrite app_nil_r.
  - rewrite IH, <- app_assoc. reflexivity.
Qed.

Lemma flat_map_strings kvs :
  flat_map (fun kv : string * Value =>
              if _scalar_type (snd kv) then []
              else text_writes (snd kv) (Some (fst kv)))
           (map (fun kv : string * string => (fst kv, VStr (snd kv))) kvs) = [].
Proof. induction kvs as [|[k s] kvs IH]; simpl; auto. Qed.

(** X12. For a dictionary whose values are all strings, [_output] writes one
    line: the values in insertion order, separated by tabs, after the label in
    upper case when there is a non-empty one.  The keys are not written. *)
Theorem text_output_flat_dict (kvs : list (string * string)) (label : string) :
  label <> "" ->
  TextFormatter._output (VDict (map (fun kv => (fst kv, VStr (snd kv))) kvs))
    (Some label)
  = Ok [String.concat tab (TextFormatter.str_upper label :: map snd kvs); nl]
  /\ TextFormatter._output (VDict (map (fun kv => (fst kv, VStr (snd kv))) kvs))
       None
     = Ok [String.concat tab (map snd kvs); nl].
Proof.
  intro Hl. rewrite !_output_writes. cbn [text_writes].
  rewrite classify_strings, flat_map_strings. cbn [fst app].
  destruct (String.eqb_spec label ""); [contradiction|]. split; reflexivity.
Qed.

Lemma text_output_flat_dict_witness :
  "instances" <> ""
  /\ TextFormatter._output
       (VDict (map (fun kv => (fst kv, VStr (snd kv)))
                   [("Id", "i-1"); ("State", "running")]))
       (Some "instances")
     = Ok [String.concat tab
             (TextFormatter.str_upper "instances"
              :: map snd [("Id", "i-1"); ("State", "running")]); nl]
  /\ TextFormatter._output
       (VDict (map (fun kv => (fst kv, VStr (snd kv)))
                   [("Id", "i-1"); ("State", "running")]))
       None
     = Ok [String.concat tab (map snd [("Id", "i-1"); ("State", "running")]); nl].
Proof.
  split; [discriminate|].
  apply (@text_output_flat_dict [("Id", "i-1"); ("State", "running")] "instances").
  discriminate.
Defined.

(** ** The three formatters on the same response *)

(** X13. When a response without [Errors] has a [ResponseMetadata] that is
    [None], a boolean or a number, looking for [RequestId] in it raises
    TypeError: [_remove_request_id] raises, and so does [__call__] of the
    table, JSON and text formatters, before anything is written. *)
Theorem malformed_metadata_raises (d : Dict) (md : Value) :
  dict_lookup d "Errors" = None ->
  dict_lookup d "ResponseMetadata" = Some md ->
  md = VNone \/ (exists b, md = VBool b) \/ (exists z, md = VInt z) ->
  _remove_request_id (VDict d) = Raise TypeError
  /\ (forall self name, __call__ self name (VDict d) = Raise TypeError)
  /\ (forall json_dump, JSONFormatter.__call__ json_dump (VDict d) = Raise TypeError)
  /\ TextFormatter.__call__ (VDict d) = Raise TypeError.
Proof.
  intros He Hm Hk.
  assert (E : _remove_request_id (VDict d) = Raise TypeError).
  { unfold _remove_request_id. cbn [py_in res_bind py_getitem]. rewrite He, Hm.
    cbn [negb res_bind]. destruct Hk as [->|[[b ->]|[z ->]]]; reflexivity. }
  split; [exact E|]. split; [|split].
  - intros. unfold __call__. now rewrite E.
  - intros. unfold JSONFormatter.__call__. now rewrite E.
  - unfold TextFormatter.__call__. now rewrite E.
Qed.

Lemma malformed_metadata_raises_witness :
  dict_lookup [("ResponseMetadata", VNone); ("Items", VList [])] "Errors" = None
  /\ dict_lookup [("ResponseMetadata", VNone); ("Items", VList [])] "ResponseMetadata"
     = Some VNone
  /\ _remove_request_id (VDict [("ResponseMetadata", VNone); ("Items", VList [])])
     = Raise TypeError
  /\ (forall self name,
        __call__ self name (VDict [("ResponseMetadata", VNone); ("Items", VList [])])
        = Raise TypeError)
  /\ (forall json_dump,
        JSONFormatter.__call__ json_dump
          (VDict [("ResponseMetadata", VNone); ("Items", VList [])])
        = Raise TypeError)
  /\ TextFormatter.__call__ (VDict [("ResponseMetadata", VNone); ("Items", VList [])])
     = Raise TypeError.
Proof.
  split; [reflexivity|]. split; [reflexivity|].
  apply (@malformed_metadata_raises
           [("ResponseMetadata", VNone); ("Items", VList [])] VNone);
    [reflexivity|reflexivity|now left].
Defined.

(** X14. A response without [Errors] that holds nothing but its
    [ResponseMetadata] (or nothing at all) is empty once filtered: the table
    formatter renders nothing and leaves its table alone, the JSON formatter
    writes nothing, and the text formatter writes one empty line. *)
Theorem metadata_only_response (d : Dict) :
  dict_lookup d "Errors" = None ->
  (forall md, dict_lookup d "ResponseMetadata" = Some md ->
              isinstance_dict md = true) ->
  dict_del d "ResponseMetadata" = [] ->
  (forall self name,
     exists self', __call__ self name (VDict d) = Ok (self', None)
                   /\ calls (table self') = calls (table self))
  /\ (forall json_dump, JSONFormatter.__call__ json_dump (VDict d) = Ok [])
  /\ TextFormatter.__call__ (VDict d) = Ok [""; nl].
Proof.
  intros He Hmd Hdel.
  assert (E : _remove_request_id (VDict d) = Ok (VDict [])).
  { rewrite remove_request_id_dict by exact Hmd. now rewrite He, Hdel. }
  split; [|split].
  - intros self name. unfold __call__. rewrite E. cbn [res_bind].
    unfold _format_response. rewrite build_falsy by reflexivity.
    eexists. split; reflexivity.
  - intro. unfold JSONFormatter.__call__. rewrite E. reflexivity.
  - unfold TextFormatter.__call__. rewrite E. reflexivity.
Qed.

Lemma metadata_only_response_witness :
  dict_lookup [("ResponseMetadata", VDict [("RequestId", VStr "r")])] "Errors" = None
  /\ dict_del [("ResponseMetadata", VDict [("RequestId", VStr "r")])] "ResponseMetadata"
     = []
  /\ (forall self name,
        exists self',
          __call__ self name
            (VDict [("ResponseMetadata", VDict [("RequestId", VStr "r")])])
          = Ok (self', None)
          /\ calls (table self') = calls (table self))
  /\ (forall json_dump,
        JSONFormatter.__call__ json_dump
          (VDict [("ResponseMetadata", VDict [("RequestId", VStr "r")])]) = Ok [])
  /\ TextFormatter.__call__
       (VDict [("ResponseMetadata", VDict [("RequestId", VStr "r")])])
     = Ok [""; nl].
Proof.
  split; [reflexivity|]. split; [reflexivity|].
  apply (@metadata_only_response
           [("ResponseMetadata", VDict [("RequestId", VStr "r")])]).
  - reflexivity.
  - intros md E. vm_compute in E. inversion E. reflexivity.
  - reflexivity.
Defined.

(** X15. [get_formatter] builds the JSON and the text formatter whatever the
    color option is; for the table format it raises ValueError exactly when
    the color option is none of [auto], [off], [on]; for any other format it
    returns [None]. *)
Theorem get_formatter_color (format_type color : string) :
  (format_type = "json" ->
   get_formatter format_type color = Ok (Some (JSONFormatterObject color)))
  /\ (format_type = "text" ->
      get_formatter format_type color = Ok (Some (TextFormatterObject color)))
  /\ (format_type = "table" ->
      (color = "auto" \/ color = "off" \/ color = "on" ->
       exists self, get_formatter format_type color
                    = Ok (Some (TableFormatterObject self))
                    /\ calls (table self) = [])
      /\ (color <> "auto" -> color <> "off" -> color <> "on" ->
          get_formatter format_type color
          = Raise (ValueError ("Unknown color option: " ++ color))))
  /\ (format_type <> "json" -> format_type <> "text" -> format_type <> "table" ->
      get_formatter format_type color = Ok None).
Proof.
  unfold get_formatter. split; [|split; [|split]].
  - intros ->. reflexivity.
  - intros ->. reflexivity.
  - intros ->. cbn [String.eqb Ascii.eqb Bool.eqb]. split.
    + intros [-> | [-> | ->]]; eexists; split; reflexivity.
    + intros H1 H2 H3. unfold __init__.
      destruct (String.eqb_spec color "auto"); [contradiction|].
      destruct (String.eqb_spec color "off"); [contradiction|].
      destruct (String.eqb_spec color "on"); [contradiction|]. reflexivity.
  - intros H1 H2 H3.
    destruct (String.eqb_spec format_type "json"); [contradiction|].
    destruct (String.eqb_spec format_type "text"); [contradiction|].
    destruct (String.eqb_spec format_type "table"); [contradiction|]. reflexivity.
Qed.

Lemma get_formatter_color_witness :
  get_formatter "json" "blue" = Ok (Some (JSONFormatterObject "blue"))
  /\ get_formatter "table" "blue"
     = Raise (ValueError ("Unknown color option: " ++ "blue"))
  /\ get_formatter "yaml" "on" = Ok None.
Proof.
  split; [|split].
  - apply (proj1 (get_formatter_color "json" "blue")). reflexivity.
  - apply (proj2 (proj1 (proj2 (proj2 (get_formatter_color "table" "blue")))
                     eq_refl)); discriminate.
  - apply (proj2 (proj2 (proj2 (get_formatter_color "yaml" "on")))); discriminate.
Defined.
